(** * Signal recorder of [streamlit_app.py]

    A shallow embedding of the trading-signal part of the dashboard:
    [fetch_candle_data], [check_conditions], [record_signal], the
    "Check Signal" button handler and the "Signal History" read.

    Prices are IEEE binary64 values (Python floats), compared with the
    language's [==], which is [PrimFloat.eqb] here: a NaN differs from
    itself and the two zeroes are equal.  Labels and timestamps are
    strings, as in the source.  The fetched window (a pandas DataFrame
    built from the list the broker returns) is the list of its rows. *)

From Stdlib Require Import List String Ascii Bool Arith ZArith Lia PrimFloat.
Import ListNotations.

Open Scope string_scope.

(** ** Data model *)

(** One row of the fetched window: the four price columns the code reads. *)
Record Candle : Type := mkCandle {
  open : float;
  high : float;
  low : float;
  close : float
}.

(** [pd.DataFrame(data)]: one row per element of [data], in order. *)
Definition DataFrame : Type := list Candle.

(** [df.empty] *)
Definition empty (df : DataFrame) : bool :=
  match df with
  | [] => true
  | _ :: _ => false
  end.

(** [df[col].iloc[0]] on a frame whose first row is [first]. *)
Definition iloc_first (col : Candle -> float) (first : Candle) (rest : list Candle) : float :=
  col first.

(** [df[col].iloc[-1]] on the frame [first :: rest]. *)
Definition iloc_last (col : Candle -> float) (first : Candle) (rest : list Candle) : float :=
  col (last rest first).

Module Classifier.

(** The four labels the source returns. *)
Definition labels : list string := ["BUY"; "SELL"; "HOLD"; "No Data"].

(** [check_conditions(df)], branch for branch. *)
Definition check_conditions (df : DataFrame) : string :=
  match df with
  | [] => "No Data"
  | first :: rest =>
      let open_price := iloc_first open first rest in
      let high_price := iloc_first high first rest in
      let low_price := iloc_first low first rest in
      let prev_close := iloc_last close first rest in
      if (open_price =? low_price)%float && (prev_close =? open_price)%float then "BUY"
      else if (open_price =? low_price)%float then "BUY"
      else if (prev_close =? high_price)%float then "SELL"
      else if (open_price =? high_price)%float then "SELL"
      else if (prev_close =? open_price)%float && (open_price =? high_price)%float then "SELL"
      else if (low_price =? prev_close)%float then "BUY"
      else "HOLD"
  end.

(** [check_conditions] with the fifth [elif] (lines 118-119) deleted and
    nothing else changed. *)
Definition check_conditions_without_rule6 (df : DataFrame) : string :=
  match df with
  | [] => "No Data"
  | first :: rest =>
      let open_price := iloc_first open first rest in
      let high_price := iloc_first high first rest in
      let low_price := iloc_first low first rest in
      let prev_close := iloc_last close first rest in
      if (open_price =? low_price)%float && (prev_close =? open_price)%float then "BUY"
      else if (open_price =? low_price)%float then "BUY"
      else if (prev_close =? high_price)%float then "SELL"
      else if (open_price =? high_price)%float then "SELL"
      else if (low_price =? prev_close)%float then "BUY"
      else "HOLD"
  end.

(** *** The classifier as the specification words it *)

(** What the classifier is given: no data, or the current candle together
    with a previous-close value. *)
Inductive ClassifierInput : Type :=
| NoData
| Data (candle : Candle) (prev_close : float).

(** What [check_conditions] reads from a frame: the first row as the
    candle, the last row's close as the previous close. *)
Definition classifier_input (df : DataFrame) : ClassifierInput :=
  match df with
  | [] => NoData
  | first :: rest => Data first (iloc_last close first rest)
  end.

(** A rule: a condition and the label it yields. *)
Definition rule : Type := (ClassifierInput -> bool) * string.

Definition on_data (p : Candle -> float -> bool) (x : ClassifierInput) : bool :=
  match x with
  | NoData => false
  | Data c pc => p c pc
  end.

Definition rule1 : rule :=
  (fun x => match x with NoData => true | Data _ _ => false end, "No Data").
Definition rule2 : rule :=
  (on_data (fun c pc => (open c =? low c)%float && (pc =? open c)%float), "BUY").
Definition rule3 : rule :=
  (on_data (fun c _ => (open c =? low c)%float), "BUY").
Definition rule4 : rule :=
  (on_data (fun c pc => (pc =? high c)%float), "SELL").
Definition rule5 : rule :=
  (on_data (fun c _ => (open c =? high c)%float), "SELL").
Definition rule6 : rule :=
  (on_data (fun c pc => (pc =? open c)%float && (open c =? high c)%float), "SELL").
Definition rule7 : rule :=
  (on_data (fun c pc => (low c =? pc)%float), "BUY").
Definition rule8 : rule :=
  (fun _ => true, "HOLD").

(** The eight rules of the specification, in its priority order. *)
Definition spec_rules : list rule :=
  [rule1; rule2; rule3; rule4; rule5; rule6; rule7; rule8].

(** First match wins. *)
Fixpoint first_match (rules : list rule) (x : ClassifierInput) : option string :=
  match rules with
  | [] => None
  | (cond, label) :: rules' => if cond x then Some label else first_match rules' x
  end.

(** The rules that match an input, in priority order. *)
Definition matching (rules : list rule) (x : ClassifierInput) : list rule :=
  filter (fun r => fst r x) rules.

End Classifier.

(** ** Timestamps *)

Module Clock.

(** A reading of [datetime.now()]: the naive local date and time. *)
Record datetime : Type := mkDatetime {
  year : Z;
  month : Z;
  day : Z;
  hour : Z;
  minute : Z;
  second : Z;
  microsecond : Z
}.

(** The ranges every [datetime] object satisfies ([MINYEAR = 1],
    [MAXYEAR = 9999]). *)
Definition valid_datetime (d : datetime) : bool :=
  ((1 <=? year d) && (year d <=? 9999) &&
   (1 <=? month d) && (month d <=? 12) &&
   (1 <=? day d) && (day d <=? 31) &&
   (0 <=? hour d) && (hour d <? 24) &&
   (0 <=? minute d) && (minute d <? 60) &&
   (0 <=? second d) && (second d <? 60) &&
   (0 <=? microsecond d) && (microsecond d <? 1000000))%Z.

Definition digit (n : Z) : ascii := ascii_of_nat (Z.to_nat (48 + n)).

Fixpoint decimal_aux (fuel : nat) (n : Z) (acc : string) : string :=
  match fuel with
  | O => acc
  | S fuel' =>
      let acc' := String (digit (n mod 10)) acc in
      if (n <? 10)%Z then acc' else decimal_aux fuel' (n / 10) acc'
  end.

(** [n >= 0] in decimal, without leading zeroes (it has no more digits
    than bits). *)
Definition decimal (n : Z) : string := decimal_aux (S (Z.to_nat (Z.log2 n))) n "".

Fixpoint zeroes (k : nat) : string :=
  match k with
  | O => ""
  | S k' => String "0" (zeroes k')
  end.

(** A numeric field padded with zeroes to [width] characters. *)
Definition zero_padded (width : nat) (n : Z) : string :=
  let s := decimal n in zeroes (width - String.length s) ++ s.

(** [d.strftime("%Y-%m-%d %H:%M:%S")]: [%Y] is the year in decimal as
    the C library writes it, without padding (four digits from year 1000
    on, fewer before); the other fields are padded to two digits. *)
Definition strftime (d : datetime) : string :=
  decimal (year d) ++ "-" ++ zero_padded 2 (month d) ++ "-" ++ zero_padded 2 (day d)
  ++ " " ++
  zero_padded 2 (hour d) ++ ":" ++ zero_padded 2 (minute d) ++ ":" ++ zero_padded 2 (second d).

(** *** The shape YYYY-MM-DD HH:MM:SS *)

Definition is_digit (c : ascii) : bool :=
  ((48 <=? nat_of_ascii c) && (nat_of_ascii c <=? 57))%nat.

Inductive pattern_char : Type :=
| Digit
| Literal (c : ascii).

Fixpoint matches (p : list pattern_char) (s : string) : bool :=
  match p, s with
  | [], EmptyString => true
  | Digit :: p', String c s' => is_digit c && matches p' s'
  | Literal l :: p', String c s' => Ascii.eqb l c && matches p' s'
  | _, _ => false
  end.

Definition timestamp_pattern : list pattern_char :=
  [Digit; Digit; Digit; Digit; Literal "-"; Digit; Digit; Literal "-"; Digit; Digit;
   Literal " ";
   Digit; Digit; Literal ":"; Digit; Digit; Literal ":"; Digit; Digit].

Definition is_timestamp (s : string) : bool := matches timestamp_pattern s.

Definition digit_value (c : ascii) : Z := Z.of_nat (nat_of_ascii c) - 48.

Definition read2 (a b : ascii) : Z := 10 * digit_value a + digit_value b.

Definition read4 (a b c d : ascii) : Z :=
  1000 * digit_value a + 100 * digit_value b + 10 * digit_value c + digit_value d.

(** Reads a timestamp back: year, month, day, hour, minute, second. *)
Definition parse_timestamp (s : string) : option (Z * Z * Z * Z * Z * Z) :=
  match s with
  | String y1 (String y2 (String y3 (String y4 (String _
    (String m1 (String m2 (String _
    (String d1 (String d2 (String _
    (String h1 (String h2 (String _
    (String n1 (String n2 (String _
    (String s1 (String s2 EmptyString)))))))))))))))))) =>
      Some (read4 y1 y2 y3 y4, read2 m1 m2, read2 d1 d2, read2 h1 h2, read2 n1 n2, read2 s1 s2)
  | _ => None
  end.

(** A two-character field: two digits that read back as [n]. *)
Definition two_digits (n : Z) : bool :=
  match zero_padded 2 n with
  | String a (String b EmptyString) => is_digit a && is_digit b && (read2 a b =? n)%Z
  | _ => false
  end.

(** A year from 1000 on is written with four digits that read back as
    the year. *)
Definition year_digits (n : Z) : bool :=
  (n <? 1000)%Z
  || match decimal n with
     | String a (String b (String c (String d EmptyString))) =>
         is_digit a && is_digit b && is_digit c && is_digit d && (read4 a b c d =? n)%Z
     | _ => false
     end.

End Clock.

(** ** Effects: the page, the log store and exceptions *)

(** A row of the table [signals (timestamp TEXT, signal TEXT)]. *)
Record Signal : Type := mkSignal {
  timestamp : string;
  signal : string
}.

Definition Signal_eq_dec (r r' : Signal) : {r = r'} + {r <> r'}.
Proof.
  decide equality; apply string_dec.
Defined.

(** The messages and tables a run of the script puts on the page
    ([st.error], [st.success], [st.dataframe]); headers and input widgets
    are not followed. *)
Inductive ui_event : Type :=
| st_error_shown (msg : string)
| st_success_shown (msg : string)
| st_dataframe_shown (rows : list Signal).

(** The state the code acts on: the page being rendered and the durable
    content of [trade_signals.db] ([None]: the table [signals] does not
    exist yet). *)
Record World : Type := mkWorld {
  page : list ui_event;
  signals_table : option (list Signal)
}.

(** The rows a [SELECT * FROM signals] would find, none when there is no
    table. *)
Definition rows (t : option (list Signal)) : list Signal :=
  match t with
  | None => []
  | Some l => l
  end.

(** A computation returns a value or raises an exception (its message). *)
Inductive result (A : Type) : Type :=
| Ok (a : A)
| Raised (e : string).

Arguments Ok {A} a.
Arguments Raised {A} e.

Definition M (A : Type) : Type := World -> result A * World.

Definition ret {A : Type} (a : A) : M A := fun w => (Ok a, w).

Definition raise {A : Type} (e : string) : M A := fun w => (Raised e, w).

Definition bind {A B : Type} (m : M A) (k : A -> M B) : M B :=
  fun w =>
    match m w with
    | (Ok a, w') => k a w'
    | (Raised e, w') => (Raised e, w')
    end.

(** [try: m / except Exception as e: handler e] *)
Definition try_except {A : Type} (m : M A) (handler : string -> M A) : M A :=
  fun w =>
    match m w with
    | (Ok a, w') => (Ok a, w')
    | (Raised e, w') => handler e w'
    end.

Notation "x <- m ;; k" := (bind m (fun x => k))
  (at level 61, m at next level, right associativity).
Notation "m ;;; k" := (bind m (fun _ => k))
  (at level 61, right associativity).

(** An external call: what the collaborator answered this time. *)
Definition external {A : Type} (answer : result A) : M A :=
  match answer with
  | Ok a => ret a
  | Raised e => raise e
  end.

Definition show (ev : ui_event) : M unit :=
  fun w => (Ok tt, mkWorld (page w ++ [ev]) (signals_table w)).

Definition st_error (msg : string) : M unit := show (st_error_shown msg).
Definition st_success (msg : string) : M unit := show (st_success_shown msg).
Definition st_dataframe (history : list Signal) : M unit := show (st_dataframe_shown history).

Definition set_table (t : option (list Signal)) : M unit :=
  fun w => (Ok tt, mkWorld (page w) t).

Definition get_table : M (option (list Signal)) :=
  fun w => (Ok (signals_table w), w).

(** ** The operations of the signal recorder *)

Module Recorder.

Import Clock.

(** *** The log store (sqlite3)

    Each call into the store either proceeds or raises; [None] is a call
    that proceeds, [Some e] one that raises the error [e]. *)

Record StoreAnswers : Type := mkStoreAnswers {
  connect_error : option string;
  create_error : option string;
  insert_error : option string;
  commit_error : option string;
  select_error : option string
}.

Definition store_ok : StoreAnswers := mkStoreAnswers None None None None None.

Definition may_raise (err : option string) : M unit :=
  match err with
  | None => ret tt
  | Some e => raise e
  end.

(** [sqlite3.connect('trade_signals.db')] *)
Definition sqlite3_connect (s : StoreAnswers) : M unit :=
  may_raise (connect_error s).

(** [CREATE TABLE IF NOT EXISTS signals (timestamp TEXT, signal TEXT)]:
    a missing table is created empty, an existing one is left alone.  The
    statement runs outside any transaction, so it is durable at once. *)
Definition execute_create_table (s : StoreAnswers) : M unit :=
  may_raise (create_error s) ;;;
  t <- get_table ;;
  set_table (Some (rows t)).

(** [INSERT INTO signals VALUES (?, ?)]: the row joins the connection's
    open transaction, which is returned; nothing is durable yet. *)
Definition execute_insert (s : StoreAnswers) (row : Signal) : M (list Signal) :=
  may_raise (insert_error s) ;;;
  ret [row].

(** [conn.commit()]: the rows of the transaction go after the rows
    already in the table. *)
Definition commit (s : StoreAnswers) (transaction : list Signal) : M unit :=
  may_raise (commit_error s) ;;;
  t <- get_table ;;
  set_table (Some (rows t ++ transaction)%list).

(** [pd.read_sql("SELECT * FROM signals", conn)]: every row in insertion
    order; when the table does not exist pandas raises [DatabaseError]
    with the statement and the store's message. *)
Definition read_sql_signals (s : StoreAnswers) : M (list Signal) :=
  may_raise (select_error s) ;;;
  t <- get_table ;;
  match t with
  | None => raise "Execution failed on sql 'SELECT * FROM signals': no such table: signals"
  | Some l => ret l
  end.

(** *** [fetch_candle_data]

    [historical_data] is what [kite.historical_data(...)] does on this
    call: the list of bars it returns, or the exception it raises. *)
Definition fetch_candle_data (historical_data : result (list Candle)) : M DataFrame :=
  try_except
    (data <- external historical_data ;;
     ret data)
    (fun e =>
       st_error ("Error fetching candle data: " ++ e) ;;;
       ret []).

(** The frame [fetch_candle_data] hands to the classifier. *)
Definition fetched (answer : result (list Candle)) : DataFrame :=
  match answer with
  | Ok data => data
  | Raised _ => []
  end.

(** *** [record_signal] *)
Definition record_signal (now : datetime) (s : StoreAnswers) (signal : string) : M unit :=
  sqlite3_connect s ;;;
  execute_create_table s ;;;
  transaction <- execute_insert s (mkSignal (strftime now) signal) ;;
  commit s transaction.

(** The error [record_signal] meets first, in the order of its calls into
    the store: connect, create, insert, commit. *)
Definition write_error (s : StoreAnswers) : option string :=
  match connect_error s, create_error s, insert_error s, commit_error s with
  | Some e, _, _, _ => Some e
  | None, Some e, _, _ => Some e
  | None, None, Some e, _ => Some e
  | None, None, None, Some e => Some e
  | None, None, None, None => None
  end.

(** What the collaborators do during one run of the script. *)
Record Answers : Type := mkAnswers {
  historical_data : result (list Candle);
  now : datetime;
  store : StoreAnswers;
  history_store : StoreAnswers
}.

(** *** The "Check Signal" button handler (lines 146-151) *)
Definition check_signal (a : Answers) : M unit :=
  df <- fetch_candle_data (historical_data a) ;;
  let signal := Classifier.check_conditions df in
  record_signal (now a) (store a) signal ;;;
  st_success ("Signal: " ++ signal).

(** *** The "Signal History" read (lines 154-158) *)
Definition signal_history (s : StoreAnswers) : M unit :=
  sqlite3_connect s ;;;
  history_df <- read_sql_signals s ;;
  st_dataframe history_df.

(** *** The "Trading Signals" part of the script (lines 135-158)

    [logged_in]: ['access_token' in st.session_state]; [clicked]: what
    [st.button("Check Signal")] returns on this run. *)
Definition trading_signals (logged_in clicked : bool) (a : Answers) : M unit :=
  if logged_in then
    (if clicked then check_signal a else ret tt) ;;;
    signal_history (history_store a)
  else ret tt.

(** The log an operation leaves behind, whether it returned or raised. *)
Definition log_after {A : Type} (m : M A) (t : option (list Signal)) : option (list Signal) :=
  signals_table (snd (m (mkWorld [] t))).

(** What an operation showed on a fresh page. *)
Definition page_after {A : Type} (m : M A) (t : option (list Signal)) : list ui_event :=
  page (snd (m (mkWorld [] t))).

(** How an operation ended. *)
Definition outcome {A : Type} (m : M A) (t : option (list Signal)) : result A :=
  fst (m (mkWorld [] t)).

(** *** The signal logger as the specification names it *)

(** [append(s)]: [record_signal] at clock reading [now], the store
    answering every call. *)
Definition append (now : datetime) (label : string) (t : option (list Signal)) : option (list Signal) :=
  log_after (record_signal now store_ok label) t.

(** [list()]: what the history read obtains from the store. *)
Definition list_signals (t : option (list Signal)) : result (list Signal) :=
  outcome (sqlite3_connect store_ok ;;; read_sql_signals store_ok) t.

(** The record an append at clock reading [fst x] with label [snd x]
    writes. *)
Definition record_of (x : datetime * string) : Signal :=
  mkSignal (strftime (fst x)) (snd x).

(** [N] appends in a row, the first element first. *)
Fixpoint appends (l : list (datetime * string)) (t : option (list Signal)) : option (list Signal) :=
  match l with
  | [] => t
  | (now, label) :: l' => appends l' (append now label t)
  end.

(** *** Reachable logs

    The log starts without a table; every run of the script, with any
    answers of the collaborators and a valid clock reading of a year
    from 1000 on, leads from a reachable log to a reachable log.
    [reachable clocks t]: the runs so far read the clock at [clocks],
    the oldest run first, and led to the log [t]. *)
Inductive reachable : list datetime -> option (list Signal) -> Prop :=
| reachable_initial : reachable [] None
| reachable_run (clocks : list datetime) (t : option (list Signal))
                (logged_in clicked : bool) (a : Answers) :
    reachable clocks t ->
    valid_datetime (now a) = true ->
    (1000 <= year (now a))%Z ->
    reachable (clocks ++ [now a]) (log_after (trading_signals logged_in clicked a) t).

(** The record [r] was stamped at the clock reading [d]: its timestamp is
    the reading formatted, of the shape YYYY-MM-DD HH:MM:SS, and reads
    back as the reading cut to the second. *)
Definition stamped_at (d : datetime) (r : Signal) : Prop :=
  timestamp r = strftime d /\
  is_timestamp (timestamp r) = true /\
  parse_timestamp (timestamp r)
  = Some (year d, month d, day d, hour d, minute d, second d).

End Recorder.

(** ** What a run shows and writes *)

Module Views.

Import Clock Recorder.

(** The messages [fetch_candle_data] shows: one error for a call that
    raised, nothing otherwise. *)
Definition fetch_errors (answer : result (list Candle)) : list ui_event :=
  match answer with
  | Ok _ => []
  | Raised e => [st_error_shown ("Error fetching candle data: " ++ e)]
  end.

(** The label the handler computes from the broker's answer. *)
Definition label_of (answer : result (list Candle)) : string :=
  Classifier.check_conditions (fetched answer).

(** The record the handler writes when the store lets it. *)
Definition record_for (a : Answers) : Signal :=
  mkSignal (strftime (now a)) (label_of (historical_data a)).

(** The history read meets no error of the store itself. *)
Definition reads_ok (s : StoreAnswers) : bool :=
  match connect_error s, select_error s with
  | None, None => true
  | _, _ => false
  end.

End Views.

(** ** Login (lines 47-80) and the script around the recorder *)

Module Login.

Import Clock Recorder.

(** A Python [dict] with string keys: at most one entry per key. *)
Definition dict (V : Type) : Type := list (string * V).

(** [d.get(k)]: [None] for a missing key. *)
Fixpoint dict_get {V : Type} (k : string) (d : dict V) : option V :=
  match d with
  | [] => None
  | (k', v) :: d' => if String.eqb k k' then Some v else dict_get k d'
  end.

(** [k in d] *)
Definition dict_contains {V : Type} (k : string) (d : dict V) : bool :=
  match dict_get k d with
  | Some _ => true
  | None => false
  end.

(** [d[k] = v]: the entry of [k] is replaced, or added at the end. *)
Fixpoint dict_set {V : Type} (k : string) (v : V) (d : dict V) : dict V :=
  match d with
  | [] => [(k, v)]
  | (k', v') :: d' =>
      if String.eqb k k' then (k, v) :: d' else (k', v') :: dict_set k v d'
  end.

(** [d[k]]: a missing key raises [KeyError(k)], whose message is the
    key in quotes. *)
Definition getitem {V : Type} (d : dict V) (k : string) : M V :=
  match dict_get k d with
  | Some v => ret v
  | None => raise ("'" ++ k ++ "'")
  end.

(** [l[0]] *)
Definition first_item {V : Type} (l : list V) : M V :=
  match l with
  | v :: _ => ret v
  | [] => raise "list index out of range"
  end.

(** What a run puts in the sidebar. *)
Inductive sidebar_event : Type :=
| sidebar_header (text : string)
| sidebar_markdown (text : string)
| sidebar_success (text : string).

(** The state of the login besides the page and the log: the sidebar
    being rendered, [st.session_state], and the access token the [kite]
    client holds. *)
Record Session : Type := mkSession {
  sidebar : list sidebar_event;
  session_state : dict string;
  kite_access_token : option string
}.

Definition sidebar_show (ev : sidebar_event) (s : Session) : Session :=
  mkSession (sidebar s ++ [ev]) (session_state s) (kite_access_token s).

(** [kite.set_access_token(token)] *)
Definition set_access_token (token : string) (s : Session) : Session :=
  mkSession (sidebar s) (session_state s) (Some token).

(** [st.session_state[key] = value] *)
Definition session_state_set (key value : string) (s : Session) : Session :=
  mkSession (sidebar s) (dict_set key value (session_state s)) (kite_access_token s).

(** What the browser and the broker supply during one run. *)
Record LoginAnswers : Type := mkLoginAnswers {
  login_url : string;
  query_params : dict (list string);
  generate_session : string -> result (dict string)
}.

(** [get_access_token(request_token)] (lines 55-62). *)
Definition get_access_token (la : LoginAnswers) (request_token : string) (s : Session)
  : M Session :=
  try_except
    (data <- external (generate_session la request_token) ;;
     token <- getitem data "access_token" ;;
     let s1 := set_access_token token s in
     let s2 := session_state_set "access_token" token s1 in
     st_success "Authentication successful!" ;;;
     ret s2)
    (fun e =>
       st_error ("Error generating session: " ++ e) ;;;
       ret s).

(** [get_login_url()] (lines 64-65). *)
Definition get_login_url (la : LoginAnswers) : string := login_url la.

(** The authentication block (lines 68-80). *)
Definition authentication (la : LoginAnswers) (s : Session) : M Session :=
  if negb (dict_contains "access_token" (session_state s)) then
    let s1 := sidebar_show (sidebar_header "Login to Zerodha Kite") s in
    let url := get_login_url la in
    let s2 := sidebar_show
                (sidebar_markdown ("[Login](" ++ url ++ ") to access trading features.")) s1 in
    if dict_contains "request_token" (query_params la) then
      tokens <- getitem (query_params la) "request_token" ;;
      request_token <- first_item tokens ;;
      get_access_token la request_token s2
    else ret s2
  else ret (sidebar_show (sidebar_success "You are logged in!") s).

(** The broker accepts the request token and returns an access token. *)
Definition granted_token (la : LoginAnswers) (request_token : string) : option string :=
  match generate_session la request_token with
  | Ok data => dict_get "access_token" data
  | Raised _ => None
  end.

(** The request token the authentication block passes on: the first
    value of the query parameter. *)
Definition request_token_of (la : LoginAnswers) : option string :=
  match dict_get "request_token" (query_params la) with
  | Some (token :: _) => Some token
  | _ => None
  end.

(** [kite = KiteConnect(api_key=API_KEY)] (line 53): every run of the
    script makes a new client, which holds no access token. *)
Definition kite_connect (s : Session) : Session :=
  mkSession (sidebar s) (session_state s) None.

(** The script from the login to the signal history (lines 53-158): the
    "Trading Signals" part runs when the session holds an access token
    after the authentication block. The session returned is the one the
    trading part ran with. *)
Definition login_and_trading (la : LoginAnswers) (clicked : bool) (a : Answers) (s : Session)
  : M Session :=
  let s0 := kite_connect s in
  s' <- authentication la s0 ;;
  trading_signals (dict_contains "access_token" (session_state s')) clicked a ;;;
  ret s'.

(** Whether the session holds an access token once the authentication
    block is through: it did before, or the request token of the query was
    granted one in this run. *)
Definition logged_in_after (la : LoginAnswers) (s : Session) : bool :=
  dict_contains "access_token" (session_state s)
  || match request_token_of la with
     | Some request_token =>
         match granted_token la request_token with
         | Some _ => true
         | None => false
         end
     | None => false
     end.

(** The message shown when the broker refuses: the exception's message,
    or the missing key in quotes. *)
Definition refusal (la : LoginAnswers) (request_token : string) : string :=
  match generate_session la request_token with
  | Ok _ => "'access_token'"
  | Raised e => e
  end.

End Login.

(** ** The GDP table (lines 19-44) and the GDP page (lines 163-236) *)

Module Gdp.

(** A row of the CSV file as [pd.read_csv] returns it: the country code
    and, for a column name, the row's value in that column (NaN for an
    empty field). The file is taken to have a column for every year the
    code asks for. *)
Record RawRow : Type := mkRawRow {
  country_code : string;
  cell : string -> float
}.

Definition MIN_YEAR : Z := 1960.
Definition MAX_YEAR : Z := 2022.

(** [range(lo, hi)] *)
Definition range (lo hi : Z) : list Z :=
  map (fun k : nat => (lo + Z.of_nat k)%Z) (seq 0 (Z.to_nat (hi - lo))).

(** [str(x)] for an integer [x >= 0]. *)
Definition str (x : Z) : string := Clock.decimal x.

(** [[str(x) for x in range(MIN_YEAR, MAX_YEAR + 1)]] *)
Definition year_columns : list string := map str (range MIN_YEAR (MAX_YEAR + 1)).

(** A row of the melted frame: the id column, the name of the column the
    value came from, and the value. *)
Record MeltedRow : Type := mkMeltedRow {
  melted_country : string;
  melted_year : string;
  melted_gdp : float
}.

(** [raw.melt(['Country Code'], value_vars, 'Year', 'GDP')]: the value
    columns one after the other, each with all the rows in their order. *)
Definition melt (raw : list RawRow) (value_vars : list string) : list MeltedRow :=
  flat_map
    (fun column => map (fun r => mkMeltedRow (country_code r) column (cell r column)) raw)
    value_vars.

Fixpoint parse_digits (s : string) (acc : Z) : option Z :=
  match s with
  | EmptyString => Some acc
  | String c s' =>
      if Clock.is_digit c then parse_digits s' (10 * acc + Clock.digit_value c) else None
  end.

(** [pd.to_numeric] on one string of the column: the number a string of
    digits denotes; [None] when it raises. *)
Definition to_numeric (s : string) : option Z :=
  match s with
  | EmptyString => None
  | String _ _ => parse_digits s 0
  end.

(** A row of [gdp_df]. *)
Record GdpRow : Type := mkGdpRow {
  country : string;
  year : Z;
  gdp : float
}.

(** [gdp_df['Year'] = pd.to_numeric(gdp_df['Year'])]: every value of the
    column is converted, and one that cannot be makes the call raise. *)
Fixpoint to_numeric_year (rows : list MeltedRow) : option (list GdpRow) :=
  match rows with
  | [] => Some []
  | r :: rows' =>
      match to_numeric (melted_year r), to_numeric_year rows' with
      | Some y, Some converted =>
          Some (mkGdpRow (melted_country r) y (melted_gdp r) :: converted)
      | _, _ => None
      end
  end.

(** [get_gdp_data()] on the content [raw] of the CSV file. *)
Definition get_gdp_data (raw : list RawRow) : option (list GdpRow) :=
  let gdp_df := melt raw year_columns in
  to_numeric_year gdp_df.

(** [pd.to_numeric] reads back what [str] wrote. *)
Definition reads_back (y : Z) : bool :=
  match to_numeric (str y) with
  | Some z => (z =? y)%Z
  | None => false
  end.

(** The table, one block of rows per year. *)
Definition table (raw : list RawRow) (years : list Z) : list GdpRow :=
  flat_map (fun y => map (fun r => mkGdpRow (country_code r) y (cell r (str y))) raw) years.

(** [series.min()] and [series.max()]: [None] is the NaN of an empty
    series. *)
Definition series_min (l : list Z) : option Z :=
  match l with
  | [] => None
  | x :: l' => Some (fold_left Z.min l' x)
  end.

Definition series_max (l : list Z) : option Z :=
  match l with
  | [] => None
  | x :: l' => Some (fold_left Z.max l' x)
  end.

(** [series.unique()]: the distinct values in the order of their first
    appearance. *)
Fixpoint unique_from (seen : list string) (l : list string) : list string :=
  match l with
  | [] => []
  | x :: l' =>
      if existsb (String.eqb x) seen then unique_from seen l'
      else x :: unique_from (x :: seen) l'
  end.

Definition unique (l : list string) : list string := unique_from [] l.

(** [countries = gdp_df['Country Code'].unique()] (line 172). *)
Definition countries (gdp_df : list GdpRow) : list string := unique (map country gdp_df).

(** The filter of lines 187-191. *)
Definition filtered_gdp_df (gdp_df : list GdpRow) (selected_countries : list string)
           (from_year to_year : Z) : list GdpRow :=
  filter
    (fun r =>
       existsb (String.eqb (country r)) selected_countries
       && (year r <=? to_year)%Z
       && (from_year <=? year r)%Z)
    gdp_df.

(** [gdp_df[gdp_df['Year'] == y]] (lines 208-209). *)
Definition rows_of_year (gdp_df : list GdpRow) (y : Z) : list GdpRow :=
  filter (fun r => (year r =? y)%Z) gdp_df.

(** [frame[frame['Country Code'] == c]['GDP']] *)
Definition gdp_of_country (frame : list GdpRow) (c : string) : list float :=
  map gdp (filter (fun r => String.eqb (country r) c) frame).

(** [series.iat[0]] *)
Definition iat0 (series : list float) : result float :=
  match series with
  | x :: _ => Ok x
  | [] => Raised "index 0 is out of bounds for axis 0 with size 0"
  end.

(** The names the script binds at its top level: its imports (lines 1-8),
    its functions and every variable it assigns, also those assigned on
    some runs only. *)
Definition script_globals : list string :=
  ["st"; "pd"; "Path"; "KiteConnect"; "webbrowser"; "sqlite3"; "datetime"; "dt_time";
   "urlencode"; "get_gdp_data"; "gdp_df"; "API_KEY"; "API_SECRET"; "REDIRECT_URL"; "kite";
   "get_access_token"; "get_login_url"; "login_url"; "query_params"; "request_token";
   "fetch_candle_data"; "check_conditions"; "record_signal"; "instrument_token";
   "date_input"; "time_input"; "candle_datetime"; "df"; "signal"; "conn"; "history_df";
   "min_value"; "max_value"; "from_year"; "to_year"; "countries"; "selected_countries";
   "filtered_gdp_df"; "first_year"; "last_year"; "cols"; "i"; "country"; "col";
   "first_gdp"; "last_gdp"; "growth"; "delta_color"].

(** Reading a global name: a name the script never binds raises
    [NameError]. *)
Definition global_name (name : string) : result unit :=
  if existsb (String.eqb name) script_globals then Ok tt
  else Raised ("name '" ++ name ++ "' is not defined").

(** A call of [st.metric] in one of the four columns. *)
Record Metric : Type := mkMetric {
  metric_column : nat;
  metric_label : string;
  metric_value : string;
  metric_delta : string;
  metric_delta_color : string
}.

Section Metrics.

(** The two number formats of the f-strings, [:,.0f] and [:,.2f]. *)
Variable format_0f : float -> string.
Variable format_2f : float -> string.

(** The body of the loop of lines 217-236 for the [i]-th selected
    country: the metrics it shows and how it ends. *)
Definition metric_body (i : nat) (c : string) (first_year last_year : list GdpRow)
  : list Metric * result unit :=
  let col := i mod 4 in
  match iat0 (gdp_of_country first_year c) with
  | Raised e => ([], Raised e)
  | Ok first_value =>
      let first_gdp := (first_value / 1000000000)%float in
      match iat0 (gdp_of_country last_year c) with
      | Raised e => ([], Raised e)
      | Ok last_value =>
          let last_gdp := (last_value / 1000000000)%float in
          match global_name "math" with
          | Raised e => ([], Raised e)
          | Ok _ =>
              let is_nan := negb (first_gdp =? first_gdp)%float in
              let growth := if is_nan then "n/a" else format_2f (last_gdp / first_gdp)%float ++ "x" in
              let delta_color := if is_nan then "off" else "normal" in
              ([mkMetric col (c ++ " GDP") (format_0f last_gdp ++ "B") growth delta_color],
               Ok tt)
          end
      end
  end.

(** [for i, country in enumerate(selected_countries): ...], counting from
    [i]; an exception ends the loop. *)
Fixpoint metrics_loop (i : nat) (selected_countries : list string)
         (first_year last_year : list GdpRow) : list Metric * result unit :=
  match selected_countries with
  | [] => ([], Ok tt)
  | c :: rest =>
      match metric_body i c first_year last_year with
      | (shown, Ok _) =>
          let (shown', r) := metrics_loop (S i) rest first_year last_year in
          ((shown ++ shown')%list, r)
      | (shown, Raised e) => (shown, Raised e)
      end
  end.

(** Lines 208-236 on the table [gdp_df]. *)
Definition gdp_metrics (gdp_df : list GdpRow) (selected_countries : list string)
           (from_year to_year : Z) : list Metric * result unit :=
  let first_year := rows_of_year gdp_df from_year in
  let last_year := rows_of_year gdp_df to_year in
  metrics_loop 0 selected_countries first_year last_year.

End Metrics.

End Gdp.

(** ** The window [fetch_candle_data] asks for (lines 86-95) *)

Module Window.

Import Clock Recorder.

Definition is_leap (y : Z) : bool :=
  ((y mod 4 =? 0) && (negb (y mod 100 =? 0) || (y mod 400 =? 0)))%Z.

Definition days_in_month (y m : Z) : Z :=
  if (m =? 2)%Z then (if is_leap y then 29 else 28)%Z
  else if ((m =? 4) || (m =? 6) || (m =? 9) || (m =? 11))%Z then 30%Z
  else 31%Z.

(** A date and time a [datetime] object can hold: the ranges of
    [valid_datetime], and a day the month has. *)
Definition valid_date (d : datetime) : bool :=
  valid_datetime d && (day d <=? days_in_month (year d) (month d))%Z.

(** [date + pd.Timedelta(minutes=15)]: the minutes carry into the hour,
    the day, the month and the year; past the last day of year 9999 the
    addition raises [OverflowError]. *)
Definition add_15_minutes (d : datetime) : result datetime :=
  let total := (minute d + 15)%Z in
  if (total <? 60)%Z then
    Ok (mkDatetime (year d) (month d) (day d) (hour d) total (second d) (microsecond d))
  else
    let minute' := (total - 60)%Z in
    if (hour d + 1 <? 24)%Z then
      Ok (mkDatetime (year d) (month d) (day d) (hour d + 1) minute'
            (second d) (microsecond d))
    else if (day d + 1 <=? days_in_month (year d) (month d))%Z then
      Ok (mkDatetime (year d) (month d) (day d + 1) 0 minute' (second d) (microsecond d))
    else if (month d + 1 <=? 12)%Z then
      Ok (mkDatetime (year d) (month d + 1) 1 0 minute' (second d) (microsecond d))
    else if (year d + 1 <=? 9999)%Z then
      Ok (mkDatetime (year d + 1) 1 1 0 minute' (second d) (microsecond d))
    else Raised "date value out of range".

(** [d.strftime("%Y-%m-%d %H:%M")], the year as in [strftime]. *)
Definition strftime_minutes (d : datetime) : string :=
  decimal (year d) ++ "-" ++ zero_padded 2 (month d) ++ "-" ++ zero_padded 2 (day d)
  ++ " " ++
  zero_padded 2 (hour d) ++ ":" ++ zero_padded 2 (minute d).

(** The arguments of [kite.historical_data]. *)
Record Request : Type := mkRequest {
  instrument_token : string;
  from_date : string;
  to_date : string;
  interval : string
}.

(** [fetch_candle_data(kite, instrument_token, date, interval)] with the
    window it computes: [historical_data] is the broker's answer to a
    request. *)
Definition fetch_candle_data_for
           (historical_data : Request -> result (list Candle))
           (token : string) (date : datetime) (interval : string) : M DataFrame :=
  try_except
    (to_date <- external (add_15_minutes date) ;;
     data <- external (historical_data
                         (mkRequest token (strftime_minutes date) (strftime_minutes to_date)
                            interval)) ;;
     ret data)
    (fun e =>
       st_error ("Error fetching candle data: " ++ e) ;;;
       ret []).

(** The answer the call of the broker is replaced with in
    [fetch_candle_data]: the broker's answer to the request, or the
    overflow of the date. *)
Definition answer_for
           (historical_data : Request -> result (list Candle))
           (token : string) (date : datetime) (interval : string) : result (list Candle) :=
  match add_15_minutes date with
  | Ok to_date =>
      historical_data
        (mkRequest token (strftime_minutes date) (strftime_minutes to_date) interval)
  | Raised e => Raised e
  end.

(** *** Time as a number of minutes (the proleptic Gregorian ordinal) *)

(** [_days_before_year(year)] *)
Definition days_before_year (y : Z) : Z :=
  ((y - 1) * 365 + (y - 1) / 4 - (y - 1) / 100 + (y - 1) / 400)%Z.

(** [_days_before_month(year, month)]; month 13 stands for the end of
    the year. *)
Definition days_before_month (y m : Z) : Z :=
  (nth (Z.to_nat (m - 1)) [0; 31; 59; 90; 120; 151; 181; 212; 243; 273; 304; 334; 365] 0
   + (if (2 <? m)%Z && is_leap y then 1 else 0))%Z.

(** [date.toordinal()] *)
Definition toordinal (d : datetime) : Z :=
  (days_before_year (year d) + days_before_month (year d) (month d) + day d)%Z.

(** Minutes since the start of day 0 of the calendar. *)
Definition minutes_of (d : datetime) : Z :=
  ((toordinal d * 24 + hour d) * 60 + minute d)%Z.

Definition minutes_pattern : list pattern_char :=
  [Digit; Digit; Digit; Digit; Literal "-"; Digit; Digit; Literal "-"; Digit; Digit;
   Literal " ";
   Digit; Digit; Literal ":"; Digit; Digit].

End Window.

(** * Properties of the classifier *)

Module ClassifierFacts.

Import Classifier.

(** Unfolds the classifier and the frame accessors. *)
Ltac unfold_classifier :=
  unfold check_conditions, check_conditions_without_rule6, classifier_input,
    iloc_first, iloc_last in *.

(** Splits on every price comparison of the goal. *)
Ltac split_comparisons :=
  repeat match goal with
         | |- context [PrimFloat.eqb ?a ?b] => destruct (PrimFloat.eqb a b) eqn:?
         end.

Lemma input_of_frame (df : DataFrame) (c : Candle) (pc : float) :
  classifier_input df = Data c pc ->
  exists rest, df = c :: rest /\ pc = close (last rest c).
Proof.
  destruct df as [|first rest]; simpl; intros H; [discriminate|].
  unfold iloc_last in H. injection H as -> <-. eauto.
Qed.

Lemma frame_of_input (x : ClassifierInput) :
  exists df, classifier_input df = x.
Proof.
  destruct x as [|c pc].
  - exists []. reflexivity.
  - exists [c; mkCandle (open c) (high c) (low c) pc]. reflexivity.
Qed.

Lemma last_of_nonempty (A : Type) (l : list A) (d d' : A) :
  l <> [] -> last l d = last l d'.
Proof.
  induction l as [|a [|b l'] IH]; intros Hl.
  - contradiction.
  - reflexivity.
  - cbn [last] in *. apply IH. discriminate.
Qed.

Lemma label_in_labels (df : DataFrame) : In (check_conditions df) labels.
Proof.
  destruct df as [|first rest]; unfold_classifier; unfold labels.
  - simpl. auto.
  - split_comparisons; simpl; auto.
Qed.

Lemma first_match_check_conditions (df : DataFrame) :
  first_match spec_rules (classifier_input df) = Some (check_conditions df).
Proof.
  destruct df as [|first rest]; [reflexivity|].
  unfold_classifier. cbn.
  split_comparisons; reflexivity.
Qed.

(** C2: the rule-6 branch of [check_conditions] is dead code. Removing it
    gives a function that agrees with [check_conditions] on every frame,
    and whenever the condition of rule 6 holds of a candle and a previous
    close, the condition of rule 4 or of rule 5 holds too. *)
Theorem rule6_unreachable :
  (forall df : DataFrame, check_conditions_without_rule6 df = check_conditions df) /\
  (forall (c : Candle) (pc : float),
      fst rule6 (Data c pc) = true ->
      fst rule4 (Data c pc) = true \/ fst rule5 (Data c pc) = true) /\
  (forall x : ClassifierInput,
      first_match [rule1; rule2; rule3; rule4; rule5; rule7; rule8] x
      = first_match spec_rules x).
Proof.
  split; [|split].
  - intros [|first rest]; [reflexivity|].
    unfold_classifier. cbn. split_comparisons; reflexivity.
  - intros c pc. cbn. intros H.
    apply andb_true_iff in H. destruct H as [_ H]. right. exact H.
  - intros [|c pc]; [reflexivity|]. cbn. split_comparisons; reflexivity.
Qed.

(** C3: on every input (no data, or a candle with a previous close) the
    classifier returns exactly one label, one of BUY, SELL, HOLD and
    "No Data", and it is the label of the first of the eight rules, taken
    in the specification's order, whose condition holds. Every such input
    is read from some frame. *)
Theorem classifier_first_match :
  (forall df : DataFrame,
      first_match spec_rules (classifier_input df) = Some (check_conditions df)) /\
  (forall df : DataFrame, In (check_conditions df) labels) /\
  (forall x : ClassifierInput, exists df : DataFrame, classifier_input df = x) /\
  (forall x : ClassifierInput,
      exists label : string,
        first_match spec_rules x = Some label /\ In label labels /\
        (forall label' : string, first_match spec_rules x = Some label' -> label' = label) /\
        (exists (r : rule) (later : list rule),
            matching spec_rules x = r :: later /\ snd r = label)).
Proof.
  split; [exact first_match_check_conditions|].
  split; [exact label_in_labels|].
  split; [exact frame_of_input|].
  intros x. destruct (frame_of_input x) as [df <-].
  exists (check_conditions df).
  split; [apply first_match_check_conditions|].
  split; [apply label_in_labels|].
  split.
  - intros label' H. rewrite first_match_check_conditions in H. congruence.
  - destruct df as [|first rest].
    + cbn. eauto.
    + unfold_classifier. unfold matching. cbn.
      split_comparisons; cbn; eauto.
Qed.

(** C4: a candle with open == low whose previous close == open is
    classified BUY. *)
Theorem open_low_prev_close_open_buy (df : DataFrame) (c : Candle) (pc : float) :
  classifier_input df = Data c pc ->
  (open c =? low c)%float = true ->
  (pc =? open c)%float = true ->
  check_conditions df = "BUY".
Proof.
  intros Hin Hol Hpo.
  destruct (input_of_frame df c pc Hin) as (rest & -> & ->).
  unfold_classifier. rewrite Hol, Hpo. reflexivity.
Qed.

Lemma open_low_prev_close_open_buy_witness :
  check_conditions [mkCandle 100 105 100 103; mkCandle 101 102 99 100] = "BUY".
Proof.
  apply (open_low_prev_close_open_buy _ (mkCandle 100 105 100 103) 100%float);
    reflexivity.
Defined.

(** C5: a candle whose previous close == high and whose open != low is
    classified SELL. *)
Theorem prev_close_high_open_not_low_sell (df : DataFrame) (c : Candle) (pc : float) :
  classifier_input df = Data c pc ->
  (pc =? high c)%float = true ->
  (open c =? low c)%float = false ->
  check_conditions df = "SELL".
Proof.
  intros Hin Hph Hol.
  destruct (input_of_frame df c pc Hin) as (rest & -> & ->).
  unfold_classifier. rewrite Hol, Hph. reflexivity.
Qed.

Lemma prev_close_high_open_not_low_sell_witness :
  check_conditions [mkCandle 100 100 95 98; mkCandle 99 101 97 100] = "SELL".
Proof.
  apply (prev_close_high_open_not_low_sell _ (mkCandle 100 100 95 98) 100%float);
    reflexivity.
Defined.

(** C6: when no candle data is available (the frame is empty) the
    classifier returns "No Data"; nothing else is consulted. *)
Theorem no_data_label (df : DataFrame) :
  empty df = true -> check_conditions df = "No Data".
Proof.
  destruct df as [|first rest]; [reflexivity | discriminate].
Qed.

Lemma no_data_label_witness : check_conditions [] = "No Data".
Proof.
  apply (no_data_label []). reflexivity.
Defined.

(** C7: a candle on which no equality rule matches (open != low, previous
    close != high, open != high, low != previous close) is classified
    HOLD; so is the candle open=100, high=105, low=95, close=102 with
    previous close 101. *)
Theorem no_rule_matches_hold :
  (forall (df : DataFrame) (c : Candle) (pc : float),
      classifier_input df = Data c pc ->
      (open c =? low c)%float = false ->
      (pc =? high c)%float = false ->
      (open c =? high c)%float = false ->
      (low c =? pc)%float = false ->
      check_conditions df = "HOLD") /\
  (forall df : DataFrame,
      classifier_input df = Data (mkCandle 100 105 95 102) 101%float ->
      check_conditions df = "HOLD").
Proof.
  assert (H : forall (df : DataFrame) (c : Candle) (pc : float),
             classifier_input df = Data c pc ->
             (open c =? low c)%float = false ->
             (pc =? high c)%float = false ->
             (open c =? high c)%float = false ->
             (low c =? pc)%float = false ->
             check_conditions df = "HOLD").
  { intros df c pc Hin Hol Hph Hoh Hlp.
    destruct (input_of_frame df c pc Hin) as (rest & -> & ->).
    unfold_classifier. rewrite Hol, Hph, Hoh, Hlp. cbn.
    split_comparisons; reflexivity. }
  split; [exact H|].
  intros df Hin. apply (H df _ _ Hin); reflexivity.
Qed.

Lemma no_rule_matches_hold_witness :
  check_conditions [mkCandle 100 105 95 102; mkCandle 102 103 100 101] = "HOLD".
Proof.
  apply (proj1 no_rule_matches_hold _ (mkCandle 100 105 95 102) 101%float);
    reflexivity.
Defined.

(** C10: the label of a non-empty frame is a function of four values
    only, the first row's open, high and low and the last row's close. Two
    non-empty frames that agree on the four get the same label; the first
    row's own close has no effect when the frame has more rows; and each
    of the four values can change the label on its own. *)
Theorem classification_depends_on_four_values :
  (exists f : float -> float -> float -> float -> string,
      forall (first : Candle) (rest : list Candle),
        check_conditions (first :: rest)
        = f (open first) (high first) (low first) (close (last rest first))) /\
  (forall (first1 first2 : Candle) (rest1 rest2 : list Candle),
      open first1 = open first2 ->
      high first1 = high first2 ->
      low first1 = low first2 ->
      close (last rest1 first1) = close (last rest2 first2) ->
      check_conditions (first1 :: rest1) = check_conditions (first2 :: rest2)) /\
  (forall (first : Candle) (own_close : float) (rest : list Candle),
      rest <> [] ->
      check_conditions (mkCandle (open first) (high first) (low first) own_close :: rest)
      = check_conditions (first :: rest)) /\
  (exists c1 c2 : Candle,
      high c1 = high c2 /\ low c1 = low c2 /\ close c1 = close c2 /\
      check_conditions [c1] <> check_conditions [c2]) /\
  (exists c1 c2 : Candle,
      open c1 = open c2 /\ low c1 = low c2 /\ close c1 = close c2 /\
      check_conditions [c1] <> check_conditions [c2]) /\
  (exists c1 c2 : Candle,
      open c1 = open c2 /\ high c1 = high c2 /\ close c1 = close c2 /\
      check_conditions [c1] <> check_conditions [c2]) /\
  (exists c1 c2 : Candle,
      open c1 = open c2 /\ high c1 = high c2 /\ low c1 = low c2 /\
      check_conditions [c1] <> check_conditions [c2]).
Proof.
  assert (Hagree : forall (first1 first2 : Candle) (rest1 rest2 : list Candle),
             open first1 = open first2 ->
             high first1 = high first2 ->
             low first1 = low first2 ->
             close (last rest1 first1) = close (last rest2 first2) ->
             check_conditions (first1 :: rest1) = check_conditions (first2 :: rest2)).
  { intros first1 first2 rest1 rest2 Ho Hh Hl Hc.
    unfold_classifier. rewrite Ho, Hh, Hl, Hc. reflexivity. }
  split; [|split; [exact Hagree|split]].
  - exists (fun o h l pc => check_conditions [mkCandle o h l pc]).
    intros first rest. apply Hagree; reflexivity.
  - intros first own_close rest Hrest. apply Hagree; try reflexivity.
    f_equal. apply last_of_nonempty. exact Hrest.
  - repeat split.
    + exists (mkCandle 100 105 100 103), (mkCandle 101 105 100 103).
      repeat split; try reflexivity. vm_compute. discriminate.
    + exists (mkCandle 100 103 95 103), (mkCandle 100 105 95 103).
      repeat split; try reflexivity. vm_compute. discriminate.
    + exists (mkCandle 100 105 100 103), (mkCandle 100 105 95 103).
      repeat split; try reflexivity. vm_compute. discriminate.
    + exists (mkCandle 100 105 95 105), (mkCandle 100 105 95 102).
      repeat split; try reflexivity. vm_compute. discriminate.
Qed.

Lemma classification_depends_on_four_values_witness :
  check_conditions [mkCandle 100 105 95 102; mkCandle 1 2 3 101]
  = check_conditions [mkCandle 100 105 95 99; mkCandle 4 5 6 7; mkCandle 8 9 10 101].
Proof.
  apply (proj1 (proj2 classification_depends_on_four_values)); reflexivity.
Defined.

End ClassifierFacts.

(** * Properties of the timestamp format *)

Module ClockFacts.

Import Clock.

(** A check that holds of every number below [k] holds of each of them. *)
Lemma checked_below (P : Z -> bool) (k : Z) :
  forallb P (map Z.of_nat (seq 0 (Z.to_nat k))) = true ->
  forall n : Z, (0 <= n < k)%Z -> P n = true.
Proof.
  intros Hall n Hn.
  rewrite forallb_forall in Hall. apply Hall.
  apply in_map_iff. exists (Z.to_nat n). split.
  - apply Z2Nat.id. lia.
  - apply in_seq. lia.
Qed.

Lemma two_digits_below_100 (n : Z) : (0 <= n < 100)%Z -> two_digits n = true.
Proof.
  apply (checked_below two_digits 100%Z). vm_compute. reflexivity.
Qed.

Lemma year_digits_below_10000 (n : Z) : (0 <= n < 10000)%Z -> year_digits n = true.
Proof.
  apply (checked_below year_digits 10000%Z). vm_compute. reflexivity.
Qed.

Lemma two_digits_shape (n : Z) :
  (0 <= n < 100)%Z ->
  exists a b : ascii,
    zero_padded 2 n = String a (String b EmptyString) /\
    is_digit a = true /\ is_digit b = true /\ read2 a b = n.
Proof.
  intros Hn. pose proof (two_digits_below_100 n Hn) as H.
  unfold two_digits in H.
  destruct (zero_padded 2 n) as [|a [|b [|]]]; try discriminate.
  rewrite !andb_true_iff, Z.eqb_eq in H.
  exists a, b. tauto.
Qed.

Lemma year_digits_shape (n : Z) :
  (1000 <= n < 10000)%Z ->
  exists a b c d : ascii,
    decimal n = String a (String b (String c (String d EmptyString))) /\
    is_digit a = true /\ is_digit b = true /\ is_digit c = true /\ is_digit d = true /\
    read4 a b c d = n.
Proof.
  intros Hn. pose proof (year_digits_below_10000 n ltac:(lia)) as H.
  unfold year_digits in H.
  assert (Hge : (n <? 1000)%Z = false) by (apply Z.ltb_ge; lia).
  rewrite Hge in H. cbn [orb] in H.
  destruct (decimal n) as [|a [|b [|c [|d [|]]]]]; try discriminate.
  rewrite !andb_true_iff, Z.eqb_eq in H.
  exists a, b, c, d. tauto.
Qed.

(** Before year 1000 the year has fewer digits and the timestamp is
    shorter. *)
Lemma strftime_year_999 :
  strftime (mkDatetime 999 12 31 23 59 59 0) = "999-12-31 23:59:59".
Proof.
  reflexivity.
Qed.

Lemma valid_datetime_bounds (d : datetime) :
  valid_datetime d = true ->
  (1 <= year d <= 9999 /\ 1 <= month d <= 12 /\ 1 <= day d <= 31 /\
   0 <= hour d < 24 /\ 0 <= minute d < 60 /\ 0 <= second d < 60 /\
   0 <= microsecond d < 1000000)%Z.
Proof.
  unfold valid_datetime.
  rewrite !andb_true_iff, !Z.leb_le, !Z.ltb_lt. lia.
Qed.

(** The timestamp of a valid clock reading of a year from 1000 on has
    the shape YYYY-MM-DD HH:MM:SS and reads back as the reading, to the
    second. *)
Lemma strftime_timestamp (d : datetime) :
  valid_datetime d = true ->
  (1000 <= year d)%Z ->
  is_timestamp (strftime d) = true /\
  parse_timestamp (strftime d)
  = Some (year d, month d, day d, hour d, minute d, second d).
Proof.
  intros Hv Hyear. apply valid_datetime_bounds in Hv.
  destruct (year_digits_shape (year d)) as (y1 & y2 & y3 & y4 & Ey & ? & ? & ? & ? & Ry); [lia|].
  destruct (two_digits_shape (month d)) as (m1 & m2 & Em & ? & ? & Rm); [lia|].
  destruct (two_digits_shape (day d)) as (d1 & d2 & Ed & ? & ? & Rd); [lia|].
  destruct (two_digits_shape (hour d)) as (h1 & h2 & Eh & ? & ? & Rh); [lia|].
  destruct (two_digits_shape (minute d)) as (n1 & n2 & En & ? & ? & Rn); [lia|].
  destruct (two_digits_shape (second d)) as (s1 & s2 & Es & ? & ? & Rs); [lia|].
  unfold strftime. rewrite Ey, Em, Ed, Eh, En, Es.
  split.
  - unfold is_timestamp, timestamp_pattern. cbn.
    repeat match goal with H : is_digit _ = true |- _ => rewrite H; clear H end.
    reflexivity.
  - cbn. rewrite Ry, Rm, Rd, Rh, Rn, Rs. reflexivity.
Qed.

(** The timestamp does not record the microseconds. *)
Lemma strftime_drops_microseconds (d : datetime) (us : Z) :
  strftime (mkDatetime (year d) (month d) (day d) (hour d) (minute d) (second d) us)
  = strftime d.
Proof.
  reflexivity.
Qed.

End ClockFacts.

(** * Properties of the signal log and of the button handler *)

Module RecorderFacts.

Import Clock Recorder.

(** What [record_signal] does, by the first error of the store. *)
Lemma record_signal_run (now : datetime) (s : StoreAnswers) (label : string) (w : World) :
  fst (record_signal now s label w)
  = match write_error s with None => Ok tt | Some e => Raised e end /\
  page (snd (record_signal now s label w)) = page w /\
  rows (signals_table (snd (record_signal now s label w)))
  = (rows (signals_table w)
     ++ match write_error s with None => [mkSignal (strftime now) label] | Some _ => [] end)%list /\
  (write_error s = None ->
   signals_table (snd (record_signal now s label w))
   = Some (rows (signals_table w) ++ [mkSignal (strftime now) label])%list).
Proof.
  destruct s as [[e1|] [e2|] [e3|] [e4|] sel]; destruct w as [pg t];
    cbn; rewrite ?app_nil_r; repeat split; try reflexivity; discriminate.
Qed.

(** [fetch_candle_data] never raises and never touches the log. *)
Lemma fetch_candle_data_run (answer : result (list Candle)) (w : World) :
  fetch_candle_data answer w
  = match answer with
    | Ok data => (Ok data, w)
    | Raised e =>
        (Ok [], mkWorld (page w ++ [st_error_shown ("Error fetching candle data: " ++ e)])
                        (signals_table w))
    end.
Proof.
  destruct answer; reflexivity.
Qed.

(** The "Signal History" read leaves the log as it is. *)
Lemma signal_history_log (s : StoreAnswers) (w : World) :
  signals_table (snd (signal_history s w)) = signals_table w.
Proof.
  destruct s as [[e1|] cr ins cm [e5|]]; destruct w as [pg [l|]]; reflexivity.
Qed.

(** The log after the handler: the old rows, then the new record unless
    the store raised. *)
Lemma check_signal_rows (a : Answers) (w : World) :
  rows (signals_table (snd (check_signal a w)))
  = (rows (signals_table w)
     ++ match write_error (store a) with
        | None => [mkSignal (strftime (now a)) (Classifier.check_conditions (fetched (historical_data a)))]
        | Some _ => []
        end)%list.
Proof.
  unfold check_signal, bind. rewrite fetch_candle_data_run.
  destruct (historical_data a) as [data|e]; cbn [fetched].
  - pose proof (record_signal_run (now a) (store a) (Classifier.check_conditions data) w)
      as (Hr & _ & Hrows & _).
    destruct (record_signal _ _ _ w) as [[[]|e'] w']; cbn [fst snd] in *; exact Hrows.
  - set (w1 := mkWorld _ _).
    pose proof (record_signal_run (now a) (store a) (Classifier.check_conditions []) w1)
      as (Hr & _ & Hrows & _).
    destruct (record_signal _ _ _ w1) as [[[]|e'] w']; cbn [fst snd] in *; exact Hrows.
Qed.

(** The log after one run of the script. *)
Lemma trading_signals_rows (logged_in clicked : bool) (a : Answers) (t : option (list Signal)) :
  exists new : list Signal,
    rows (log_after (trading_signals logged_in clicked a) t) = (rows t ++ new)%list /\
    (new = [] \/
     new = [mkSignal (strftime (now a)) (Classifier.check_conditions (fetched (historical_data a)))]).
Proof.
  unfold log_after, trading_signals.
  destruct logged_in; [|exists []; cbn; rewrite app_nil_r; auto].
  destruct clicked.
  - pose proof (check_signal_rows a (mkWorld [] t)) as Hrows.
    unfold bind at 1.
    destruct (check_signal a (mkWorld [] t)) as [[[]|e] w'] eqn:E; cbn [snd] in *.
    + rewrite signal_history_log. rewrite Hrows. cbn [signals_table].
      eexists; split; [reflexivity|]. destruct (write_error (store a)); auto.
    + rewrite Hrows. cbn [signals_table].
      eexists; split; [reflexivity|]. destruct (write_error (store a)); auto.
  - unfold bind at 1. cbn. rewrite signal_history_log. cbn.
    exists []. rewrite app_nil_r. auto.
Qed.

Lemma append_log (now : datetime) (label : string) (t : option (list Signal)) :
  append now label t = Some (rows t ++ [mkSignal (strftime now) label])%list.
Proof.
  unfold append, log_after.
  apply (record_signal_run now store_ok label (mkWorld [] t)). reflexivity.
Qed.

Lemma list_signals_table (l : list Signal) : list_signals (Some l) = Ok l.
Proof.
  reflexivity.
Qed.

Lemma appends_log (l : list (datetime * string)) (t : option (list Signal)) :
  rows (appends l t) = (rows t ++ map record_of l)%list /\
  (l <> [] -> appends l t = Some (rows t ++ map record_of l)%list).
Proof.
  revert t. induction l as [|[now label] l' IH]; intros t.
  - cbn. rewrite app_nil_r. split; [reflexivity | contradiction].
  - cbn [appends map]. destruct (IH (append now label t)) as [IHrows IHsome].
    rewrite append_log in *. cbn [rows] in *.
    rewrite <- app_assoc in *. cbn [app] in *.
    unfold record_of at 1 3. cbn [fst snd].
    split; [exact IHrows|]. intros _.
    destruct l' as [|x l'']; [reflexivity|].
    apply IHsome. discriminate.
Qed.

(** A concrete run: the broker's call times out, the store works. *)
Definition failed_fetch : Answers :=
  mkAnswers (Raised "timeout") (mkDatetime 2024 1 5 9 30 7 123456) store_ok store_ok.




(** C8: an append followed by a listing yields the records listed
    before, in their order, followed by the new record as the last one:
    the append adds exactly one row for it, none is lost and none is
    written twice. After N appends in a row from an empty log the listing
    has length N and holds the N records in the order of the appends, for
    every N >= 1, and for N = 0 when the empty table exists. On a store
    whose table was never created, the listing with no append before it
    raises instead of returning the empty list: [record_signal] creates
    the table, the history read does not. *)
Theorem append_then_list :
  (forall (now : datetime) (label : string) (t : option (list Signal)),
      list_signals (append now label t)
      = Ok (rows t ++ [mkSignal (strftime now) label])%list) /\
  (forall (now : datetime) (label : string) (t : option (list Signal)),
      count_occ Signal_eq_dec (rows (append now label t)) (mkSignal (strftime now) label)
      = S (count_occ Signal_eq_dec (rows t) (mkSignal (strftime now) label))) /\
  (forall (l : list (datetime * string)) (t : option (list Signal)),
      rows t = [] ->
      l <> [] \/ t = Some [] ->
      exists records : list Signal,
        list_signals (appends l t) = Ok records /\
        List.length records = List.length l /\
        records = map record_of l) /\
  list_signals (appends [] None)
  = Raised "Execution failed on sql 'SELECT * FROM signals': no such table: signals".
Proof.
  split; [|split; [|split]].
  - intros now label t. rewrite append_log. apply list_signals_table.
  - intros now label t. rewrite append_log. cbn [rows].
    rewrite count_occ_app. cbn [count_occ].
    destruct (Signal_eq_dec _ _) as [_|Hne]; [lia | contradiction].
  - intros l t Hempty Hcase.
    exists (map record_of l). rewrite length_map.
    split; [|split; reflexivity].
    destruct (appends_log l t) as [_ Hsome]. rewrite Hempty in Hsome. cbn [app] in Hsome.
    destruct l as [|x l'].
    + destruct Hcase as [Hl|Ht]; [contradiction | subst t; reflexivity].
    + rewrite Hsome by discriminate. apply list_signals_table.
  - reflexivity.
Qed.

Lemma append_then_list_witness :
  exists records : list Signal,
    list_signals (appends [(mkDatetime 2024 1 5 9 30 7 0, "BUY");
                           (mkDatetime 2024 1 5 9 45 12 0, "HOLD")] None)
    = Ok records /\
    List.length records = 2 /\
    records = [mkSignal "2024-01-05 09:30:07" "BUY"; mkSignal "2024-01-05 09:45:12" "HOLD"].
Proof.
  apply (proj1 (proj2 (proj2 append_then_list))
           [(mkDatetime 2024 1 5 9 30 7 0, "BUY"); (mkDatetime 2024 1 5 9 45 12 0, "HOLD")]
           None).
  - reflexivity.
  - left. discriminate.
Defined.

(** C9: every record of a reachable log was stamped at the clock reading
    of one of the runs so far: its timestamp is that reading (the local
    time [datetime.now()] returned, of a year from 1000 on) formatted as
    YYYY-MM-DD HH:MM:SS, which reads back as the reading cut to the
    second; and its label is one of BUY, SELL, HOLD and "No Data". A run
    appends nothing or the one record made of its own clock reading and
    of the classifier's label; and no operation (a run of the script,
    [record_signal], the history read) updates or deletes a record: the
    records held before stay, in their order, at the front of the log. *)
Theorem log_invariant :
  (forall (clocks : list datetime) (t : option (list Signal)),
      reachable clocks t ->
      Forall (fun r : Signal =>
                (exists d : datetime,
                    In d clocks /\ valid_datetime d = true /\ stamped_at d r) /\
                In (signal r) Classifier.labels)
             (rows t)) /\
  (forall d : datetime,
      valid_datetime d = true ->
      (1000 <= year d)%Z ->
      is_timestamp (strftime d) = true /\
      parse_timestamp (strftime d)
      = Some (year d, month d, day d, hour d, minute d, second d)) /\
  (forall (logged_in clicked : bool) (a : Answers) (t : option (list Signal)),
      exists new : list Signal,
        rows (log_after (trading_signals logged_in clicked a) t) = (rows t ++ new)%list /\
        (new = [] \/
         new = [mkSignal (strftime (now a))
                  (Classifier.check_conditions (fetched (historical_data a)))])) /\
  (forall (now : datetime) (s : StoreAnswers) (label : string) (t : option (list Signal)),
      exists new : list Signal,
        rows (log_after (record_signal now s label) t) = (rows t ++ new)%list) /\
  (forall (s : StoreAnswers) (t : option (list Signal)),
      log_after (signal_history s) t = t).
Proof.
  split; [|split; [exact ClockFacts.strftime_timestamp|split; [|split]]].
  - intros clocks t Hreach.
    induction Hreach as [|clocks t logged_in clicked a Hreach IH Hvalid Hyear].
    + constructor.
    + destruct (trading_signals_rows logged_in clicked a t) as (new & -> & Hnew).
      apply Forall_app. split.
      * revert IH. apply Forall_impl.
        intros r [(d & Hd & Hv & Hst) Hlabel]. split; [|exact Hlabel].
        exists d. split; [apply in_or_app; left; exact Hd|]. split; assumption.
      * destruct Hnew as [Hnew|Hnew]; subst new; constructor; [|constructor].
        split; [|apply ClassifierFacts.label_in_labels].
        exists (now a). split; [apply in_or_app; right; left; reflexivity|].
        split; [exact Hvalid|].
        unfold stamped_at. cbn [timestamp]. split; [reflexivity|].
        apply ClockFacts.strftime_timestamp; assumption.
  - intros logged_in clicked a t. apply trading_signals_rows.
  - intros now s label t.
    destruct (record_signal_run now s label (mkWorld [] t)) as (_ & _ & Hrows & _).
    unfold log_after. rewrite Hrows. eauto.
  - intros s t. unfold log_after. apply signal_history_log.
Qed.

Lemma log_invariant_witness :
  Forall (fun r : Signal =>
            (exists d : datetime,
                In d [now failed_fetch] /\ valid_datetime d = true /\ stamped_at d r) /\
            In (signal r) Classifier.labels)
         (rows (log_after (trading_signals true true failed_fetch) None)).
Proof.
  apply (proj1 log_invariant [now failed_fetch]).
  apply (reachable_run [] None true true failed_fetch).
  - apply reachable_initial.
  - reflexivity.
  - cbn. lia.
Defined.

End RecorderFacts.

(** * Further properties of the classifier *)

From Stdlib Require FloatAxioms SpecFloat.

Module ClassifierExtra.

Import Classifier.
Import ClassifierFacts.

(** A value that differs from itself (a NaN, pandas' missing value) is
    equal to nothing. *)
Lemma nan_equals_nothing (x y : float) :
  (x =? x)%float = false ->
  (x =? y)%float = false /\ (y =? x)%float = false.
Proof.
  rewrite !FloatAxioms.eqb_spec. unfold SpecFloat.SFeqb.
  destruct (FloatOps.Prim2SF x) as [s| s| |s m e]; cbn.
  - destruct s; discriminate.
  - destruct s; discriminate.
  - intros _. destruct (FloatOps.Prim2SF y) as [s'| s'| |s' m' e']; auto.
  - destruct s; rewrite Z.compare_refl, ?Pos.compare_cont_refl, ?Pos.compare_refl; cbn;
      discriminate.
Qed.

(** X1: the exact condition of each label on a non-empty frame, in terms
    of the first row's open, high and low and the last row's close. BUY:
    open == low, or no SELL comparison holds and low == last close. SELL:
    open != low and (last close == high or open == high). HOLD: none of
    the four comparisons holds. "No Data" is returned for the empty frame
    and for no other. *)
Theorem label_conditions :
  (forall (first : Candle) (rest : list Candle),
      let o := open first in
      let h := high first in
      let l := low first in
      let pc := close (last rest first) in
      (check_conditions (first :: rest) = "BUY" <->
       (o =? l)%float = true \/
       ((pc =? h)%float = false /\ (o =? h)%float = false /\ (l =? pc)%float = true)) /\
      (check_conditions (first :: rest) = "SELL" <->
       (o =? l)%float = false /\ ((pc =? h)%float = true \/ (o =? h)%float = true)) /\
      (check_conditions (first :: rest) = "HOLD" <->
       (o =? l)%float = false /\ (pc =? h)%float = false /\
       (o =? h)%float = false /\ (l =? pc)%float = false)) /\
  (forall df : DataFrame, check_conditions df = "No Data" <-> df = []).
Proof.
  split.
  - intros first rest. unfold_classifier. cbv zeta.
    destruct (open first =? low first)%float;
      destruct (close (last rest first) =? high first)%float;
      destruct (open first =? high first)%float;
      destruct (low first =? close (last rest first))%float;
      destruct (close (last rest first) =? open first)%float;
      cbn; repeat split; intros; try discriminate; try tauto;
      repeat match goal with
             | H : _ /\ _ |- _ => destruct H
             | H : _ \/ _ |- _ => destruct H
             end; try discriminate; auto.
  - intros [|first rest]; split; intros H; try reflexivity; try discriminate.
    exfalso. revert H. unfold_classifier. split_comparisons; discriminate.
Qed.

(** X2: NaN prices never trigger a rule. When the first row's open
    and the last row's close are NaN the label is HOLD, whatever the high
    and the low are, and not "No Data". *)
Theorem nan_prices_hold (first : Candle) (rest : list Candle) :
  (open first =? open first)%float = false ->
  (close (last rest first) =? close (last rest first))%float = false ->
  check_conditions (first :: rest) = "HOLD".
Proof.
  intros Ho Hc.
  destruct (nan_equals_nothing (open first) (low first) Ho) as [Hol _].
  destruct (nan_equals_nothing (open first) (high first) Ho) as [Hoh _].
  destruct (nan_equals_nothing (close (last rest first)) (high first) Hc) as [Hch _].
  destruct (nan_equals_nothing (close (last rest first)) (low first) Hc) as [_ Hlc].
  unfold_classifier. rewrite Hol, Hoh, Hch, Hlc. cbn.
  split_comparisons; reflexivity.
Qed.

Lemma nan_prices_hold_witness :
  check_conditions [mkCandle nan 105 95 102; mkCandle 100 105 95 nan] = "HOLD".
Proof.
  apply (nan_prices_hold (mkCandle nan 105 95 102) [mkCandle 100 105 95 nan]);
    reflexivity.
Defined.

End ClassifierExtra.

(** * Further properties of timestamps *)

Module ClockExtra.

Import Clock.

(** X3: two valid clock readings (of a year written with four digits)
    get the same timestamp exactly when they agree on year, month, day,
    hour, minute and second; the microseconds play no part. *)
Theorem same_timestamp_same_second (d1 d2 : datetime) :
  valid_datetime d1 = true ->
  valid_datetime d2 = true ->
  (1000 <= year d1)%Z ->
  (1000 <= year d2)%Z ->
  (strftime d1 = strftime d2 <->
   year d1 = year d2 /\ month d1 = month d2 /\ day d1 = day d2 /\
   hour d1 = hour d2 /\ minute d1 = minute d2 /\ second d1 = second d2).
Proof.
  intros H1 H2 Hy1 Hy2. split.
  - intros Heq.
    destruct (ClockFacts.strftime_timestamp d1 H1 Hy1) as [_ P1].
    destruct (ClockFacts.strftime_timestamp d2 H2 Hy2) as [_ P2].
    rewrite Heq, P2 in P1. injection P1 as -> -> -> -> -> ->. tauto.
  - intros (Hy & Hm & Hd & Hh & Hn & Hs).
    unfold strftime. rewrite Hy, Hm, Hd, Hh, Hn, Hs. reflexivity.
Qed.

Lemma same_timestamp_same_second_witness :
  strftime (mkDatetime 2024 1 5 9 30 7 100000) = strftime (mkDatetime 2024 1 5 9 30 7 900000) <->
  2024%Z = 2024%Z /\ 1%Z = 1%Z /\ 5%Z = 5%Z /\ 9%Z = 9%Z /\ 30%Z = 30%Z /\ 7%Z = 7%Z.
Proof.
  apply (same_timestamp_same_second (mkDatetime 2024 1 5 9 30 7 100000)
           (mkDatetime 2024 1 5 9 30 7 900000)); first [reflexivity | cbn; lia].
Defined.

End ClockExtra.

(** * Further properties of the recorder *)

Module RecorderExtra.

Import Clock Recorder Views.

(** The handler, by the first error of the store. *)
Lemma check_signal_run (a : Answers) (t : option (list Signal)) :
  match write_error (store a) with
  | None =>
      outcome (check_signal a) t = Ok tt /\
      page_after (check_signal a) t
      = (fetch_errors (historical_data a)
         ++ [st_success_shown ("Signal: " ++ label_of (historical_data a))])%list /\
      log_after (check_signal a) t = Some (rows t ++ [record_for a])%list
  | Some e =>
      outcome (check_signal a) t = Raised e /\
      page_after (check_signal a) t = fetch_errors (historical_data a) /\
      rows (log_after (check_signal a) t) = rows t
  end.
Proof.
  destruct a as [[data|e0] n [[e1|] [e2|] [e3|] [e4|] sel] hs]; destruct t as [l|];
    cbn; rewrite ?app_nil_r; repeat split; reflexivity.
Qed.

(** X4: [fetch_candle_data] never raises and never touches the log; and a
    fetch that failed leaves the same log and the same outcome of the
    handler as a fetch that returned no bars: the two differ only by the
    error message shown first. *)
Theorem failed_fetch_like_empty_answer :
  (forall (answer : result (list Candle)) (w : World),
      exists df : DataFrame,
        fst (fetch_candle_data answer w) = Ok df /\
        signals_table (snd (fetch_candle_data answer w)) = signals_table w /\
        page (snd (fetch_candle_data answer w)) = (page w ++ fetch_errors answer)%list) /\
  (forall (e : string) (n : datetime) (s hs : StoreAnswers) (t : option (list Signal)),
      log_after (check_signal (mkAnswers (Raised e) n s hs)) t
      = log_after (check_signal (mkAnswers (Ok []) n s hs)) t /\
      outcome (check_signal (mkAnswers (Raised e) n s hs)) t
      = outcome (check_signal (mkAnswers (Ok []) n s hs)) t /\
      page_after (check_signal (mkAnswers (Raised e) n s hs)) t
      = st_error_shown ("Error fetching candle data: " ++ e)
        :: page_after (check_signal (mkAnswers (Ok []) n s hs)) t).
Proof.
  split.
  - intros [data|e] w.
    + exists data. cbn. rewrite app_nil_r. auto.
    + exists []. cbn. auto.
  - intros e n [[e1|] [e2|] [e3|] [e4|] sel] hs [l|]; cbn; auto.
Qed.

(** X5: [record_signal] is all or nothing and shows nothing on the page.
    It returns exactly when no call into the store raised, and then the
    log is the old rows followed by the one new record; otherwise it
    raises the first error met and the log holds the rows it held. *)
Theorem record_signal_all_or_nothing
        (now : datetime) (s : StoreAnswers) (label : string) (t : option (list Signal)) :
  page_after (record_signal now s label) t = [] /\
  ((outcome (record_signal now s label) t = Ok tt /\
    write_error s = None /\
    log_after (record_signal now s label) t
    = Some (rows t ++ [mkSignal (strftime now) label])%list) \/
   (exists e : string,
       outcome (record_signal now s label) t = Raised e /\
       write_error s = Some e /\
       rows (log_after (record_signal now s label) t) = rows t)).
Proof.
  destruct s as [[e1|] [e2|] [e3|] [e4|] sel]; destruct t as [l|]; cbn;
    (split; [reflexivity|]);
    first [ left; repeat split; reflexivity
          | right; eexists; repeat split; reflexivity ].
Qed.

(** X6: once [record_signal] got past connecting and creating the table,
    the table exists, also when the insert or the commit raised: a later
    listing returns the rows instead of failing for a missing table. *)
Theorem table_exists_after_create
        (now : datetime) (s : StoreAnswers) (label : string) (t : option (list Signal)) :
  connect_error s = None ->
  create_error s = None ->
  list_signals (log_after (record_signal now s label) t)
  = Ok (rows (log_after (record_signal now s label) t)).
Proof.
  destruct s as [[e1|] [e2|] [e3|] [e4|] sel]; destruct t as [l|]; cbn;
    intros H1 H2; try discriminate; reflexivity.
Qed.

Lemma table_exists_after_create_witness :
  list_signals
    (log_after (record_signal (mkDatetime 2024 1 5 9 30 7 0)
                  (mkStoreAnswers None None (Some "database is locked") None None) "BUY")
       None)
  = Ok (rows
          (log_after (record_signal (mkDatetime 2024 1 5 9 30 7 0)
                        (mkStoreAnswers None None (Some "database is locked") None None) "BUY")
             None)).
Proof.
  apply (table_exists_after_create (mkDatetime 2024 1 5 9 30 7 0)
           (mkStoreAnswers None None (Some "database is locked") None None) "BUY" None);
    reflexivity.
Defined.

(** Splits on what the collaborators answered during a run. *)
Ltac split_answers a :=
  destruct a as [[?data|?e0] ?n [[?e1|] [?e2|] [?e3|] [?e4|] ?sel]
                 [[?e5|] ?cr ?ins ?cm [?e6|]]].

(** A run without a click on a store that has no table, on any page. *)
Lemma history_on_fresh_store (a : Answers) (pg : list ui_event) :
  reads_ok (history_store a) = true ->
  trading_signals true false a (mkWorld pg None)
  = (Raised "Execution failed on sql 'SELECT * FROM signals': no such table: signals", mkWorld pg None).
Proof.
  split_answers a; cbn; intros H; try discriminate; reflexivity.
Qed.

(** X7: the history read needs the table. On a store where no signal was
    ever recorded, a run without a click raises pandas' error for the
    missing table and shows no message and no history table; on a store
    with the table it returns and shows the history table with every
    record, in the order of the log, and no message. *)
Theorem history_needs_table (a : Answers) (t : option (list Signal)) :
  reads_ok (history_store a) = true ->
  match t with
  | None =>
      outcome (trading_signals true false a) t
      = Raised "Execution failed on sql 'SELECT * FROM signals': no such table: signals" /\
      page_after (trading_signals true false a) t = []
  | Some l =>
      outcome (trading_signals true false a) t = Ok tt /\
      page_after (trading_signals true false a) t = [st_dataframe_shown l]
  end.
Proof.
  split_answers a; destruct t as [l|]; cbn; intros H; try discriminate; auto.
Qed.

Lemma history_needs_table_witness :
  outcome (trading_signals true false RecorderFacts.failed_fetch) None
  = Raised "Execution failed on sql 'SELECT * FROM signals': no such table: signals" /\
  page_after (trading_signals true false RecorderFacts.failed_fetch) None = [].
Proof.
  apply (history_needs_table RecorderFacts.failed_fetch None). reflexivity.
Defined.

(** X8: a click that the store accepts is seen at once. The run returns,
    shows the fetch error if there was one, then "Signal: " with the
    label, then the history, whose last row is the record just written
    with that same label. *)
Theorem click_shows_new_record (a : Answers) (t : option (list Signal)) :
  write_error (store a) = None ->
  reads_ok (history_store a) = true ->
  outcome (trading_signals true true a) t = Ok tt /\
  page_after (trading_signals true true a) t
  = (fetch_errors (historical_data a)
     ++ [st_success_shown ("Signal: " ++ label_of (historical_data a));
         st_dataframe_shown (rows t ++ [record_for a])])%list /\
  signal (record_for a) = label_of (historical_data a).
Proof.
  split_answers a; destruct t as [l|]; cbn; intros H1 H2; try discriminate; auto.
Qed.

Lemma click_shows_new_record_witness :
  outcome (trading_signals true true RecorderFacts.failed_fetch) None = Ok tt /\
  page_after (trading_signals true true RecorderFacts.failed_fetch) None
  = (fetch_errors (historical_data RecorderFacts.failed_fetch)
     ++ [st_success_shown ("Signal: " ++ label_of (historical_data RecorderFacts.failed_fetch));
         st_dataframe_shown (rows None ++ [record_for RecorderFacts.failed_fetch])])%list /\
  signal (record_for RecorderFacts.failed_fetch)
  = label_of (historical_data RecorderFacts.failed_fetch).
Proof.
  apply (click_shows_new_record RecorderFacts.failed_fetch None); reflexivity.
Defined.

(** X9: when the store raises while the signal is recorded, the run stops
    there: it raises that error, shows neither a success message nor the
    history, and the log holds the rows it held. *)
Theorem store_failure_stops_run (a : Answers) (t : option (list Signal)) (e : string) :
  write_error (store a) = Some e ->
  outcome (trading_signals true true a) t = Raised e /\
  page_after (trading_signals true true a) t = fetch_errors (historical_data a) /\
  rows (log_after (trading_signals true true a) t) = rows t.
Proof.
  split_answers a; destruct t as [l|]; cbn; intros H; try discriminate;
    injection H as <-; rewrite ?app_nil_r; auto.
Qed.

Lemma store_failure_stops_run_witness :
  outcome (trading_signals true true
             (mkAnswers (Ok [mkCandle 100 105 100 103]) (mkDatetime 2024 1 5 9 30 7 0)
                (mkStoreAnswers None None None (Some "disk I/O error") None) store_ok))
    (Some [mkSignal "2024-01-05 09:15:00" "HOLD"])
  = Raised "disk I/O error" /\
  page_after (trading_signals true true
                (mkAnswers (Ok [mkCandle 100 105 100 103]) (mkDatetime 2024 1 5 9 30 7 0)
                   (mkStoreAnswers None None None (Some "disk I/O error") None) store_ok))
    (Some [mkSignal "2024-01-05 09:15:00" "HOLD"])
  = fetch_errors (Ok [mkCandle 100 105 100 103]) /\
  rows (log_after (trading_signals true true
                     (mkAnswers (Ok [mkCandle 100 105 100 103]) (mkDatetime 2024 1 5 9 30 7 0)
                        (mkStoreAnswers None None None (Some "disk I/O error") None) store_ok))
          (Some [mkSignal "2024-01-05 09:15:00" "HOLD"]))
  = rows (Some [mkSignal "2024-01-05 09:15:00" "HOLD"]).
Proof.
  apply (store_failure_stops_run
           (mkAnswers (Ok [mkCandle 100 105 100 103]) (mkDatetime 2024 1 5 9 30 7 0)
              (mkStoreAnswers None None None (Some "disk I/O error") None) store_ok)
           (Some [mkSignal "2024-01-05 09:15:00" "HOLD"]) "disk I/O error").
  reflexivity.
Defined.

(** The rows after the "Trading Signals" part, on any page. *)
Lemma trading_signals_rows_exact
      (logged_in clicked : bool) (a : Answers) (w : World) :
  rows (signals_table (snd (trading_signals logged_in clicked a w)))
  = (rows (signals_table w)
     ++ (if logged_in && clicked
         then match write_error (store a) with
              | None => [record_for a]
              | Some _ => []
              end
         else []))%list.
Proof.
  destruct logged_in, clicked; split_answers a; destruct w as [pg [l|]]; cbn;
    rewrite ?app_nil_r; reflexivity.
Qed.

(** X10: what one run of the script writes. The log after the run is the
    log before it followed by one record when the user is logged in, the
    button was clicked and no call of [record_signal] into the store
    raised, and by nothing otherwise; the history read, failing or not,
    plays no part. *)
Theorem run_appends_exactly
        (logged_in clicked : bool) (a : Answers) (t : option (list Signal)) :
  rows (log_after (trading_signals logged_in clicked a) t)
  = (rows t
     ++ (if logged_in && clicked
         then match write_error (store a) with
              | None => [record_for a]
              | Some _ => []
              end
         else []))%list.
Proof.
  apply (trading_signals_rows_exact logged_in clicked a (mkWorld [] t)).
Qed.

End RecorderExtra.

(** * Properties of the login *)

Module LoginFacts.

Import Clock Recorder Views Login.

Lemma dict_get_set_same (V : Type) (k : string) (v : V) (d : dict V) :
  dict_get k (dict_set k v d) = Some v.
Proof.
  induction d as [|[k' v'] d' IH]; cbn.
  - rewrite String.eqb_refl. reflexivity.
  - destruct (String.eqb k k') eqn:E; cbn; rewrite ?String.eqb_refl, ?E; auto.
Qed.

Lemma dict_get_set_other (V : Type) (k k0 : string) (v : V) (d : dict V) :
  k0 <> k -> dict_get k0 (dict_set k v d) = dict_get k0 d.
Proof.
  intros Hne. induction d as [|[k' v'] d' IH]; cbn.
  - destruct (String.eqb k0 k) eqn:E; [|reflexivity].
    apply String.eqb_eq in E. contradiction.
  - destruct (String.eqb k k') eqn:E; cbn.
    + apply String.eqb_eq in E. subst k'.
      destruct (String.eqb k0 k) eqn:E0; [|reflexivity].
      apply String.eqb_eq in E0. contradiction.
    + rewrite IH. reflexivity.
Qed.

(** [get_access_token], by what the broker answers. *)
Lemma get_access_token_run
      (la : LoginAnswers) (request_token : string) (s : Session) (w : World) :
  get_access_token la request_token s w
  = match granted_token la request_token with
    | Some token =>
        (Ok (mkSession (sidebar s) (dict_set "access_token" token (session_state s))
               (Some token)),
         mkWorld (page w ++ [st_success_shown "Authentication successful!"])
           (signals_table w))
    | None =>
        (Ok s,
         mkWorld (page w ++ [st_error_shown
                               ("Error generating session: " ++ refusal la request_token)])
           (signals_table w))
    end.
Proof.
  unfold granted_token, refusal, get_access_token, try_except, bind, getitem.
  destruct (generate_session la request_token) as [data|e]; cbn.
  - destruct (dict_get "access_token" data) as [token|]; reflexivity.
  - reflexivity.
Qed.

(** X11: [get_access_token] never raises and never touches the log. When
    the broker returns a session with an access token, the token is put in
    the client and in the session state, where a lookup finds it and every
    other key keeps its value, and one success message is shown. When the
    broker raises or the answer has no access token, the session is left
    as it was and one error message is shown. *)
Theorem get_access_token_outcomes
        (la : LoginAnswers) (request_token : string) (s : Session) (w : World) :
  match granted_token la request_token with
  | Some token =>
      get_access_token la request_token s w
      = (Ok (mkSession (sidebar s) (dict_set "access_token" token (session_state s))
               (Some token)),
         mkWorld (page w ++ [st_success_shown "Authentication successful!"])
           (signals_table w)) /\
      dict_get "access_token" (dict_set "access_token" token (session_state s)) = Some token /\
      (forall k : string,
          k <> "access_token" ->
          dict_get k (dict_set "access_token" token (session_state s))
          = dict_get k (session_state s))
  | None =>
      get_access_token la request_token s w
      = (Ok s,
         mkWorld (page w ++ [st_error_shown
                               ("Error generating session: " ++ refusal la request_token)])
           (signals_table w))
  end.
Proof.
  unfold granted_token, refusal, get_access_token, try_except, bind, getitem.
  destruct (generate_session la request_token) as [data|e]; cbn.
  - destruct (dict_get "access_token" data) as [token|]; cbn.
    + split; [reflexivity|]. split.
      * apply dict_get_set_same.
      * intros k Hk. apply dict_get_set_other. exact Hk.
    + reflexivity.
  - reflexivity.
Qed.

Lemma dict_contains_set (k v : string) (d : dict string) :
  dict_contains k (dict_set k v d) = true.
Proof.
  unfold dict_contains. rewrite dict_get_set_same. reflexivity.
Qed.

(** The authentication block leaves the log alone; when it returns, the
    session holds an access token exactly when [logged_in_after] says so,
    and when it raises the session held none. *)
Lemma authentication_run (la : LoginAnswers) (s : Session) (w : World) :
  signals_table (snd (authentication la s w)) = signals_table w /\
  match fst (authentication la s w) with
  | Ok s' => dict_contains "access_token" (session_state s') = logged_in_after la s
  | Raised _ => logged_in_after la s = false
  end.
Proof.
  unfold authentication, logged_in_after, request_token_of.
  destruct (dict_contains "access_token" (session_state s)) eqn:Hin; cbn [negb orb].
  - cbn -[String.append]. rewrite Hin. auto.
  - destruct (dict_get "request_token" (query_params la)) as [[|request_token tokens']|] eqn:Hq;
      (assert (Hc : dict_contains "request_token" (query_params la)
                    = match dict_get "request_token" (query_params la) with
                      | Some _ => true
                      | None => false
                      end) by reflexivity);
      rewrite Hq in Hc; rewrite !Hc.
    + unfold bind, getitem. rewrite Hq. cbn -[String.append]. auto.
    + unfold bind, getitem. rewrite Hq. cbn -[String.append get_access_token].
      rewrite get_access_token_run.
      destruct (granted_token la request_token) as [token|];
        cbn -[String.append dict_set dict_contains].
      * split; [reflexivity|]. apply dict_contains_set.
      * split; [reflexivity|]. exact Hin.
    + cbn -[String.append]. auto.
Qed.

(** X12: a session that is logged in stays so, but its client is new. In
    a run that starts with an access token in the session state, the
    authentication block asks the broker nothing, shows nothing on the
    page and keeps the session state; the "Trading Signals" part runs, and
    the client it runs with (made anew by the run) holds no access
    token. *)
Theorem later_runs_have_no_kite_token
        (la : LoginAnswers) (clicked : bool) (a : Answers) (s : Session) (w : World) :
  dict_contains "access_token" (session_state s) = true ->
  authentication la (kite_connect s) w
  = (Ok (mkSession (sidebar s ++ [sidebar_success "You are logged in!"])
           (session_state s) None), w) /\
  login_and_trading la clicked a s w
  = (trading_signals true clicked a ;;;
     ret (mkSession (sidebar s ++ [sidebar_success "You are logged in!"])
            (session_state s) None)) w.
Proof.
  intros Hin.
  assert (Hauth : authentication la (kite_connect s) w
                  = (Ok (mkSession (sidebar s ++ [sidebar_success "You are logged in!"])
                           (session_state s) None), w)).
  { unfold authentication. cbn [kite_connect session_state]. rewrite Hin. reflexivity. }
  split; [exact Hauth|].
  unfold login_and_trading. cbv zeta. unfold bind at 1. rewrite Hauth.
  cbn [session_state]. rewrite Hin. reflexivity.
Qed.

Lemma later_runs_have_no_kite_token_witness :
  authentication (mkLoginAnswers "https://kite.zerodha.com/connect/login" []
                    (fun _ => Raised "unused"))
    (kite_connect (mkSession [] [("access_token", "abc")] (Some "abc")))
    (mkWorld [] None)
  = (Ok (mkSession ([] ++ [sidebar_success "You are logged in!"])
           [("access_token", "abc")] None), mkWorld [] None) /\
  login_and_trading (mkLoginAnswers "https://kite.zerodha.com/connect/login" []
                       (fun _ => Raised "unused"))
    true RecorderFacts.failed_fetch
    (mkSession [] [("access_token", "abc")] (Some "abc")) (mkWorld [] None)
  = (trading_signals true true RecorderFacts.failed_fetch ;;;
     ret (mkSession ([] ++ [sidebar_success "You are logged in!"])
            [("access_token", "abc")] None)) (mkWorld [] None).
Proof.
  apply (later_runs_have_no_kite_token
           (mkLoginAnswers "https://kite.zerodha.com/connect/login" []
              (fun _ => Raised "unused"))
           true RecorderFacts.failed_fetch
           (mkSession [] [("access_token", "abc")] (Some "abc")) (mkWorld [] None)).
  reflexivity.
Defined.

(** The run in which the login succeeds, step by step. *)
Lemma login_run
        (la : LoginAnswers) (clicked : bool) (a : Answers) (s : Session) (w : World)
        (request_token token : string) :
  dict_contains "access_token" (session_state s) = false ->
  request_token_of la = Some request_token ->
  granted_token la request_token = Some token ->
  login_and_trading la clicked a s w
  = (trading_signals true clicked a ;;;
     ret (mkSession
            (sidebar s
             ++ [sidebar_header "Login to Zerodha Kite";
                 sidebar_markdown ("[Login](" ++ login_url la ++ ") to access trading features.")])
            (dict_set "access_token" token (session_state s))
            (Some token)))
      (mkWorld (page w ++ [st_success_shown "Authentication successful!"]) (signals_table w)).
Proof.
  intros Hin Hrt Hgrant.
  unfold login_and_trading. cbv zeta. unfold bind at 1.
  unfold authentication. cbn [kite_connect session_state]. rewrite Hin. cbn [negb].
  unfold request_token_of in Hrt.
  destruct (dict_get "request_token" (query_params la)) as [[|rt tokens]|] eqn:Hq;
    try discriminate.
  injection Hrt as ->.
  unfold dict_contains at 1. rewrite Hq.
  unfold bind at 1. unfold getitem. rewrite Hq.
  cbn -[String.append get_access_token].
  rewrite get_access_token_run, Hgrant.
  cbn -[String.append dict_set dict_contains trading_signals].
  rewrite dict_contains_set. rewrite <- app_assoc. reflexivity.
Qed.

(** X13: the run in which the login succeeds. With no access token in the
    session state, a request token in the query and a broker that grants
    an access token for it, the token is put in the client and in the
    session state, "Authentication successful!" is shown, and the
    "Trading Signals" part runs in the same run. *)
Theorem login_run_enters_trading
        (la : LoginAnswers) (clicked : bool) (a : Answers) (s : Session) (w : World)
        (request_token token : string) :
  dict_contains "access_token" (session_state s) = false ->
  request_token_of la = Some request_token ->
  granted_token la request_token = Some token ->
  login_and_trading la clicked a s w
  = (trading_signals true clicked a ;;;
     ret (mkSession
            (sidebar s
             ++ [sidebar_header "Login to Zerodha Kite";
                 sidebar_markdown ("[Login](" ++ login_url la ++ ") to access trading features.")])
            (dict_set "access_token" token (session_state s))
            (Some token)))
      (mkWorld (page w ++ [st_success_shown "Authentication successful!"]) (signals_table w)).
Proof.
  apply login_run.
Qed.

Lemma login_run_enters_trading_witness :
  login_and_trading
    (mkLoginAnswers "https://kite.zerodha.com/connect/login" [("request_token", ["r1"; "r2"])]
       (fun rt => if String.eqb rt "r1" then Ok [("access_token", "abc")] else Raised "invalid"))
    false RecorderFacts.failed_fetch (mkSession [] [] None) (mkWorld [] None)
  = (trading_signals true false RecorderFacts.failed_fetch ;;;
     ret (mkSession
            ([] ++ [sidebar_header "Login to Zerodha Kite";
                    sidebar_markdown
                      ("[Login](" ++ "https://kite.zerodha.com/connect/login"
                       ++ ") to access trading features.")])
            (dict_set "access_token" "abc" [])
            (Some "abc")))
      (mkWorld ([] ++ [st_success_shown "Authentication successful!"]) None).
Proof.
  apply (login_run_enters_trading
           (mkLoginAnswers "https://kite.zerodha.com/connect/login"
              [("request_token", ["r1"; "r2"])]
              (fun rt => if String.eqb rt "r1" then Ok [("access_token", "abc")]
                         else Raised "invalid"))
           false RecorderFacts.failed_fetch (mkSession [] [] None) (mkWorld [] None)
           "r1" "abc"); reflexivity.
Defined.

(** X22: the first run after a login, on a store where no signal was
    ever recorded, ends in an exception. With no click (the button is not
    on the page before this run) the login succeeds, the one message
    shown is "Authentication successful!", no history table is shown, and
    the history read raises pandas' error for the missing table; the
    store is left without a table. *)
Theorem first_login_on_fresh_store
        (la : LoginAnswers) (a : Answers) (s : Session) (request_token token : string) :
  dict_contains "access_token" (session_state s) = false ->
  request_token_of la = Some request_token ->
  granted_token la request_token = Some token ->
  reads_ok (history_store a) = true ->
  outcome (login_and_trading la false a s) None
  = Raised "Execution failed on sql 'SELECT * FROM signals': no such table: signals" /\
  page_after (login_and_trading la false a s) None
  = [st_success_shown "Authentication successful!"] /\
  log_after (login_and_trading la false a s) None = None.
Proof.
  intros Hin Hrt Hgrant Hreads.
  unfold outcome, page_after, log_after.
  rewrite (login_run la false a s (mkWorld [] None) request_token token Hin Hrt Hgrant).
  unfold bind at 1 2 3. cbn [page signals_table app].
  rewrite (RecorderExtra.history_on_fresh_store a _ Hreads). auto.
Qed.

Lemma first_login_on_fresh_store_witness :
  outcome
    (login_and_trading
       (mkLoginAnswers "https://kite.zerodha.com/connect/login" [("request_token", ["r1"])]
          (fun _ => Ok [("access_token", "abc")]))
       false RecorderFacts.failed_fetch (mkSession [] [] None)) None
  = Raised "Execution failed on sql 'SELECT * FROM signals': no such table: signals" /\
  page_after
    (login_and_trading
       (mkLoginAnswers "https://kite.zerodha.com/connect/login" [("request_token", ["r1"])]
          (fun _ => Ok [("access_token", "abc")]))
       false RecorderFacts.failed_fetch (mkSession [] [] None)) None
  = [st_success_shown "Authentication successful!"] /\
  log_after
    (login_and_trading
       (mkLoginAnswers "https://kite.zerodha.com/connect/login" [("request_token", ["r1"])]
          (fun _ => Ok [("access_token", "abc")]))
       false RecorderFacts.failed_fetch (mkSession [] [] None)) None
  = None.
Proof.
  apply (first_login_on_fresh_store
           (mkLoginAnswers "https://kite.zerodha.com/connect/login" [("request_token", ["r1"])]
              (fun _ => Ok [("access_token", "abc")]))
           RecorderFacts.failed_fetch (mkSession [] [] None) "r1" "abc"); reflexivity.
Defined.

(** X14: what one run of the script, login included, writes to the log:
    the old rows, followed by one record exactly when the session holds an
    access token after the authentication block (it did before, or the
    first request token of the query was granted one), the button was
    clicked and no call of [record_signal] into the store raised. A run
    whose login fails, or that has no request token, writes nothing. *)
Theorem script_appends_exactly
        (la : LoginAnswers) (clicked : bool) (a : Answers) (s : Session)
        (t : option (list Signal)) :
  rows (log_after (login_and_trading la clicked a s) t)
  = (rows t
     ++ (if logged_in_after la s && clicked
         then match write_error (store a) with
              | None => [record_for a]
              | Some _ => []
              end
         else []))%list.
Proof.
  unfold log_after, login_and_trading. cbv zeta. unfold bind at 1.
  destruct (authentication_run la (kite_connect s) (mkWorld [] t)) as [Htable Hlogged].
  change (logged_in_after la (kite_connect s)) with (logged_in_after la s) in Hlogged.
  destruct (authentication la (kite_connect s) (mkWorld [] t)) as [[s'|e] w'];
    cbn [fst snd] in *.
  - unfold bind at 1.
    pose proof (RecorderExtra.trading_signals_rows_exact
                  (dict_contains "access_token" (session_state s')) clicked a w') as Hrows.
    destruct (trading_signals _ clicked a w') as [[[]|e] w'']; unfold ret;
      cbn [fst snd] in *; rewrite Hrows, Htable, Hlogged; reflexivity.
  - rewrite Htable, Hlogged. cbn. rewrite app_nil_r. reflexivity.
Qed.

End LoginFacts.

(** * Properties of the GDP table and of the GDP page *)

Module GdpFacts.

Import Gdp.

Lemma to_numeric_str (y : Z) : (0 <= y < 3000)%Z -> to_numeric (str y) = Some y.
Proof.
  intros Hy.
  pose proof (ClockFacts.checked_below reads_back 3000%Z) as H.
  specialize (H ltac:(vm_compute; reflexivity) y Hy).
  unfold reads_back in H.
  destruct (to_numeric (str y)) as [z|]; [|discriminate].
  apply Z.eqb_eq in H. congruence.
Qed.

Lemma in_range (lo hi y : Z) : In y (range lo hi) <-> (lo <= y < hi)%Z.
Proof.
  unfold range. rewrite in_map_iff. split.
  - intros (k & <- & Hk). apply in_seq in Hk. lia.
  - intros Hy. exists (Z.to_nat (y - lo)). split; [lia|]. apply in_seq. lia.
Qed.

Lemma to_numeric_year_app (l1 l2 : list MeltedRow) :
  to_numeric_year (l1 ++ l2)
  = match to_numeric_year l1, to_numeric_year l2 with
    | Some c1, Some c2 => Some (c1 ++ c2)%list
    | _, _ => None
    end.
Proof.
  induction l1 as [|r l1' IH]; cbn [app to_numeric_year].
  - destruct (to_numeric_year l2); reflexivity.
  - rewrite IH.
    destruct (to_numeric (melted_year r)); [|reflexivity].
    destruct (to_numeric_year l1'); [|reflexivity].
    destruct (to_numeric_year l2); reflexivity.
Qed.

Lemma to_numeric_year_block (raw : list RawRow) (y : Z) :
  (0 <= y < 3000)%Z ->
  to_numeric_year (map (fun r => mkMeltedRow (country_code r) (str y) (cell r (str y))) raw)
  = Some (map (fun r => mkGdpRow (country_code r) y (cell r (str y))) raw).
Proof.
  intros Hy. induction raw as [|r raw' IH]; [reflexivity|].
  cbn [map to_numeric_year melted_year melted_country melted_gdp].
  rewrite (to_numeric_str y Hy), IH. reflexivity.
Qed.

Lemma to_numeric_year_melt (raw : list RawRow) (years : list Z) :
  (forall y, In y years -> (0 <= y < 3000)%Z) ->
  to_numeric_year (melt raw (map str years)) = Some (table raw years).
Proof.
  unfold melt, table. induction years as [|y years' IH]; intros Hys; [reflexivity|].
  cbn [map flat_map]. rewrite to_numeric_year_app.
  rewrite to_numeric_year_block by (apply Hys; left; reflexivity).
  rewrite IH by (intros y' Hy'; apply Hys; right; exact Hy').
  reflexivity.
Qed.

Lemma get_gdp_data_table (raw : list RawRow) :
  get_gdp_data raw = Some (table raw (range MIN_YEAR (MAX_YEAR + 1))).
Proof.
  unfold get_gdp_data, year_columns. cbv zeta.
  apply to_numeric_year_melt.
  intros y Hy. apply in_range in Hy. unfold MIN_YEAR, MAX_YEAR in Hy. lia.
Qed.

Lemma table_length (raw : list RawRow) (years : list Z) :
  List.length (table raw years) = List.length years * List.length raw.
Proof.
  unfold table. induction years as [|y years' IH]; [reflexivity|].
  cbn [flat_map]. rewrite length_app, length_map, IH. reflexivity.
Qed.

Lemma in_table (raw : list RawRow) (years : list Z) (row : GdpRow) :
  In row (table raw years) <->
  exists (y : Z) (r : RawRow),
    In y years /\ In r raw /\ row = mkGdpRow (country_code r) y (cell r (str y)).
Proof.
  unfold table. rewrite in_flat_map. split.
  - intros (y & Hy & Hrow). apply in_map_iff in Hrow. destruct Hrow as (r & <- & Hr). eauto.
  - intros (y & r & Hy & Hr & ->). exists y. split; [exact Hy|].
    apply in_map_iff. eauto.
Qed.

(** X15: [get_gdp_data] never fails on the year columns: the year written
    as a column name with [str] is read back by [pd.to_numeric] as the
    same number. The table holds, for each year from 1960 to 2022 in
    turn, one row per row of the file in the file's order, with that
    row's country code and its value in the year's column: 63 rows per
    row of the file. *)
Theorem gdp_table_shape (raw : list RawRow) :
  get_gdp_data raw
  = Some (flat_map
            (fun y => map (fun r => mkGdpRow (country_code r) y (cell r (str y))) raw)
            (range 1960 2023)) /\
  (forall y : Z, (1960 <= y <= 2022)%Z -> to_numeric (str y) = Some y) /\
  (forall gdp_df : list GdpRow,
      get_gdp_data raw = Some gdp_df ->
      List.length gdp_df = 63 * List.length raw).
Proof.
  split; [exact (get_gdp_data_table raw)|]. split.
  - intros y Hy. apply to_numeric_str. lia.
  - intros gdp_df H. rewrite get_gdp_data_table in H.
    assert (E : gdp_df = table raw (range MIN_YEAR (MAX_YEAR + 1))) by congruence.
    rewrite E, table_length. reflexivity.
Qed.

Lemma fold_min_spec (l : list Z) (x : Z) :
  (fold_left Z.min l x <= x)%Z /\
  (forall y : Z, In y l -> (fold_left Z.min l x <= y)%Z) /\
  (fold_left Z.min l x = x \/ In (fold_left Z.min l x) l).
Proof.
  revert x. induction l as [|a l' IH]; intros x; cbn [fold_left].
  - split; [lia|]. split; [intros y []|]. left. reflexivity.
  - destruct (IH (Z.min x a)) as (Hle & Hall & Hin).
    split; [lia|]. split.
    + intros y [<-|Hy]; [lia | apply Hall; exact Hy].
    + destruct Hin as [Heq|Hin]; [|right; right; exact Hin].
      rewrite Heq. destruct (Z.min_spec x a) as [[_ ->]|[_ ->]]; [left | right; left]; reflexivity.
Qed.

Lemma fold_max_spec (l : list Z) (x : Z) :
  (x <= fold_left Z.max l x)%Z /\
  (forall y : Z, In y l -> (y <= fold_left Z.max l x)%Z) /\
  (fold_left Z.max l x = x \/ In (fold_left Z.max l x) l).
Proof.
  revert x. induction l as [|a l' IH]; intros x; cbn [fold_left].
  - split; [lia|]. split; [intros y []|]. left. reflexivity.
  - destruct (IH (Z.max x a)) as (Hle & Hall & Hin).
    split; [lia|]. split.
    + intros y [<-|Hy]; [lia | apply Hall; exact Hy].
    + destruct Hin as [Heq|Hin]; [|right; right; exact Hin].
      rewrite Heq. destruct (Z.max_spec x a) as [[_ ->]|[_ ->]]; [right; left | left]; reflexivity.
Qed.

Lemma series_min_is (l : list Z) (m : Z) :
  In m l -> (forall y : Z, In y l -> (m <= y)%Z) -> series_min l = Some m.
Proof.
  destruct l as [|x l']; [intros []|]. intros Hin Hall. cbn [series_min]. f_equal.
  destruct (fold_min_spec l' x) as (Hle & Hlow & Hmem).
  assert (In (fold_left Z.min l' x) (x :: l')) as Hmem'.
  { destruct Hmem as [->|H]; [left; reflexivity | right; exact H]. }
  apply Hall in Hmem'.
  destruct Hin as [<-|Hin]; [lia|]. apply Hlow in Hin. lia.
Qed.

Lemma series_max_is (l : list Z) (m : Z) :
  In m l -> (forall y : Z, In y l -> (y <= m)%Z) -> series_max l = Some m.
Proof.
  destruct l as [|x l']; [intros []|]. intros Hin Hall. cbn [series_max]. f_equal.
  destruct (fold_max_spec l' x) as (Hle & Hup & Hmem).
  assert (In (fold_left Z.max l' x) (x :: l')) as Hmem'.
  { destruct Hmem as [->|H]; [left; reflexivity | right; exact H]. }
  apply Hall in Hmem'.
  destruct Hin as [<-|Hin]; [lia|]. apply Hup in Hin. lia.
Qed.

Lemma table_year_bounds (raw : list RawRow) (row : GdpRow) :
  In row (table raw (range MIN_YEAR (MAX_YEAR + 1))) ->
  (1960 <= year row <= 2022)%Z.
Proof.
  intros H. apply in_table in H. destruct H as (y & r & Hy & _ & ->).
  apply in_range in Hy. unfold MIN_YEAR, MAX_YEAR in Hy. cbn [year]. lia.
Qed.

(** X16: the bounds of the year slider come from the constants, not from
    the file. Every row of the table has a year from 1960 to 2022; when
    the file has a row, the least year of the table is 1960 and the
    greatest is 2022; when it has none, the table is empty and has no
    least and no greatest year. *)
Theorem slider_bounds (raw : list RawRow) (gdp_df : list GdpRow) :
  get_gdp_data raw = Some gdp_df ->
  (forall row : GdpRow, In row gdp_df -> (1960 <= year row <= 2022)%Z) /\
  (raw <> [] ->
   series_min (map year gdp_df) = Some 1960%Z /\
   series_max (map year gdp_df) = Some 2022%Z) /\
  (raw = [] ->
   gdp_df = [] /\ series_min (map year gdp_df) = None /\ series_max (map year gdp_df) = None).
Proof.
  intros H. rewrite get_gdp_data_table in H.
  assert (E : gdp_df = table raw (range MIN_YEAR (MAX_YEAR + 1))) by congruence.
  clear H. subst gdp_df.
  split; [exact (table_year_bounds raw)|]. split.
  - intros Hraw. destruct raw as [|r raw']; [contradiction|].
    assert (Hbound : forall y : Z,
               In y (map year (table (r :: raw') (range MIN_YEAR (MAX_YEAR + 1)))) ->
               (1960 <= y <= 2022)%Z).
    { intros y Hy. apply in_map_iff in Hy. destruct Hy as (row & <- & Hrow).
      apply (table_year_bounds _ _ Hrow). }
    assert (Hhas : forall y : Z,
               (1960 <= y <= 2022)%Z ->
               In y (map year (table (r :: raw') (range MIN_YEAR (MAX_YEAR + 1))))).
    { intros y Hy. apply in_map_iff.
      exists (mkGdpRow (country_code r) y (cell r (str y))). split; [reflexivity|].
      apply in_table. exists y, r. split; [|split; [left|]; reflexivity].
      apply in_range. unfold MIN_YEAR, MAX_YEAR. lia. }
    split.
    + apply series_min_is; [apply Hhas; lia|]. intros y Hy. apply Hbound in Hy. lia.
    + apply series_max_is; [apply Hhas; lia|]. intros y Hy. apply Hbound in Hy. lia.
  - intros ->.
    assert (E : table [] (range MIN_YEAR (MAX_YEAR + 1)) = []).
    { apply length_zero_iff_nil. rewrite table_length. apply Nat.mul_0_r. }
    rewrite E. auto.
Qed.

Lemma slider_bounds_witness :
  series_min (map year (table [mkRawRow "DEU" (fun _ => 1%float)] (range 1960 2023)))
  = Some 1960%Z /\
  series_max (map year (table [mkRawRow "DEU" (fun _ => 1%float)] (range 1960 2023)))
  = Some 2022%Z.
Proof.
  apply (slider_bounds [mkRawRow "DEU" (fun _ => 1%float)]
           (table [mkRawRow "DEU" (fun _ => 1%float)] (range 1960 2023))).
  - reflexivity.
  - discriminate.
Defined.

Lemma global_math : global_name "math" = Raised "name 'math' is not defined".
Proof.
  reflexivity.
Qed.

Lemma metric_body_raises
      (f0 f2 : float -> string) (i : nat) (c : string) (first_year last_year : list GdpRow) :
  exists e : string, metric_body f0 f2 i c first_year last_year = ([], Raised e).
Proof.
  unfold metric_body. cbv zeta.
  destruct (iat0 (gdp_of_country first_year c)) as [x|e]; [|eauto].
  destruct (iat0 (gdp_of_country last_year c)) as [y|e]; [|eauto].
  rewrite global_math. eauto.
Qed.

Lemma iat0_of_row (frame : list GdpRow) (row : GdpRow) :
  In row frame -> exists x : float, iat0 (gdp_of_country frame (country row)) = Ok x.
Proof.
  intros Hin. unfold gdp_of_country.
  assert (Hf : In row (filter (fun r => String.eqb (country r) (country row)) frame)).
  { apply filter_In. split; [exact Hin | apply String.eqb_refl]. }
  destruct (filter _ frame) as [|r rs]; [contradiction|].
  cbn. eauto.
Qed.

(** X17: the loop of the GDP metrics never shows a metric. Its body reads
    the name [math], which the script never binds, before the first call
    of [st.metric]: with no country selected the loop returns having shown
    nothing, and with a country selected it raises in the first round. For
    a country of the file and slider years from 1960 to 2022 both lookups
    [iat[0]] are in bounds and the error is the [NameError]. *)
Theorem metrics_never_shown (f0 f2 : float -> string) :
  (forall (i : nat) (selected : list string) (first_year last_year : list GdpRow),
      fst (metrics_loop f0 f2 i selected first_year last_year) = []) /\
  (forall (i : nat) (first_year last_year : list GdpRow),
      snd (metrics_loop f0 f2 i [] first_year last_year) = Ok tt) /\
  (forall (i : nat) (c : string) (rest : list string) (first_year last_year : list GdpRow),
      exists e : string,
        snd (metrics_loop f0 f2 i (c :: rest) first_year last_year) = Raised e) /\
  (forall (raw : list RawRow) (gdp_df : list GdpRow) (c : string) (rest : list string)
          (from_year to_year : Z),
      get_gdp_data raw = Some gdp_df ->
      In c (map country_code raw) ->
      (1960 <= from_year <= 2022)%Z ->
      (1960 <= to_year <= 2022)%Z ->
      gdp_metrics f0 f2 gdp_df (c :: rest) from_year to_year
      = ([], Raised "name 'math' is not defined")).
Proof.
  split; [|split; [|split]].
  - intros i selected first_year last_year. destruct selected as [|c rest]; [reflexivity|].
    cbn [metrics_loop].
    destruct (metric_body_raises f0 f2 i c first_year last_year) as [e ->]. reflexivity.
  - reflexivity.
  - intros i c rest first_year last_year. cbn [metrics_loop].
    destruct (metric_body_raises f0 f2 i c first_year last_year) as [e ->].
    exists e. reflexivity.
  - intros raw gdp_df c rest from_year to_year Hdata Hc Hfrom Hto.
    rewrite get_gdp_data_table in Hdata.
    assert (E : gdp_df = table raw (range MIN_YEAR (MAX_YEAR + 1))) by congruence.
    clear Hdata. subst gdp_df.
    apply in_map_iff in Hc. destruct Hc as (r & <- & Hr).
    assert (Hrow : forall y : Z,
               (1960 <= y <= 2022)%Z ->
               exists x : float,
                 iat0 (gdp_of_country
                         (rows_of_year (table raw (range MIN_YEAR (MAX_YEAR + 1))) y)
                         (country_code r)) = Ok x).
    { intros y Hy.
      apply (iat0_of_row _ (mkGdpRow (country_code r) y (cell r (str y)))).
      unfold rows_of_year. apply filter_In. split.
      - apply in_table. exists y, r. split; [|split; [exact Hr | reflexivity]].
        apply in_range. unfold MIN_YEAR, MAX_YEAR. lia.
      - cbn [year]. apply Z.eqb_refl. }
    unfold gdp_metrics. cbv zeta. cbn [metrics_loop]. unfold metric_body. cbv zeta.
    destruct (Hrow from_year Hfrom) as [x ->].
    destruct (Hrow to_year Hto) as [y ->].
    rewrite global_math. reflexivity.
Qed.

Lemma metrics_never_shown_witness :
  gdp_metrics (fun _ => "1") (fun _ => "1.00")
    (table [mkRawRow "DEU" (fun _ => 1%float)] (range 1960 2023)) ["DEU"; "FRA"] 1960 2022
  = ([], Raised "name 'math' is not defined").
Proof.
  apply (proj2 (proj2 (proj2 (metrics_never_shown (fun _ => "1") (fun _ => "1.00"))))
           [mkRawRow "DEU" (fun _ => 1%float)]).
  - reflexivity.
  - left. reflexivity.
  - lia.
  - lia.
Defined.

Lemma existsb_eqb_In (x : string) (l : list string) :
  existsb (String.eqb x) l = true <-> In x l.
Proof.
  rewrite existsb_exists. split.
  - intros (y & Hy & E). apply String.eqb_eq in E. subst y. exact Hy.
  - intros H. exists x. split; [exact H | apply String.eqb_refl].
Qed.

(** X18: the filter of the chart drops nothing it should keep. With
    every country of the file selected and a slider range that covers 1960
    to 2022, the filtered table is the whole table, in the same order; and
    for any selection and range, a row is in the filtered table exactly
    when it is in the table, its country is selected and its year is in
    the range. *)
Theorem filter_of_chart (raw : list RawRow) (gdp_df : list GdpRow) :
  get_gdp_data raw = Some gdp_df ->
  (forall (selected : list string) (from_year to_year : Z),
      (forall c : string, In c (map country_code raw) -> In c selected) ->
      (from_year <= 1960)%Z ->
      (2022 <= to_year)%Z ->
      filtered_gdp_df gdp_df selected from_year to_year = gdp_df) /\
  (forall (selected : list string) (from_year to_year : Z) (row : GdpRow),
      In row (filtered_gdp_df gdp_df selected from_year to_year) <->
      In row gdp_df /\ In (country row) selected /\ (from_year <= year row <= to_year)%Z).
Proof.
  intros Hdata. rewrite get_gdp_data_table in Hdata.
  assert (E : gdp_df = table raw (range MIN_YEAR (MAX_YEAR + 1))) by congruence.
  clear Hdata. subst gdp_df. split.
  - intros selected from_year to_year Hsel Hfrom Hto.
    unfold filtered_gdp_df. apply forallb_filter_id. apply forallb_forall. intros row Hrow.
    pose proof (table_year_bounds raw row Hrow) as Hy.
    apply in_table in Hrow. destruct Hrow as (y & r & _ & Hr & ->). cbn [country year] in *.
    rewrite !andb_true_iff, !Z.leb_le. repeat split; try lia.
    apply existsb_eqb_In. apply Hsel. apply in_map. exact Hr.
  - intros selected from_year to_year row. unfold filtered_gdp_df.
    rewrite filter_In, !andb_true_iff, !Z.leb_le, existsb_eqb_In. tauto.
Qed.

Lemma filter_of_chart_witness :
  filtered_gdp_df (table [mkRawRow "DEU" (fun _ => 1%float)] (range 1960 2023))
    ["FRA"; "DEU"] 1950 2030
  = table [mkRawRow "DEU" (fun _ => 1%float)] (range 1960 2023).
Proof.
  apply (filter_of_chart [mkRawRow "DEU" (fun _ => 1%float)]
           (table [mkRawRow "DEU" (fun _ => 1%float)] (range 1960 2023))).
  - reflexivity.
  - intros c [<-|[]]. right. left. reflexivity.
  - lia.
  - lia.
Defined.

Lemma unique_from_In (seen l : list string) (x : string) :
  In x (unique_from seen l) <-> In x l /\ ~ In x seen.
Proof.
  revert seen. induction l as [|a l' IH]; intros seen; cbn [unique_from].
  - cbn. tauto.
  - destruct (existsb (String.eqb a) seen) eqn:E.
    + apply existsb_eqb_In in E. rewrite IH. cbn [In]. split.
      * intros [H1 H2]. auto.
      * intros [[<-|H1] H2]; [contradiction | auto].
    + assert (Ha : ~ In a seen).
      { intros H. apply existsb_eqb_In in H. congruence. }
      cbn [In]. rewrite IH. cbn [In]. split.
      * intros [<-|[H1 H2]]; [auto|]. split; [auto|]. intros H. apply H2. right. exact H.
      * intros [[<-|H1] H2]; [auto|].
        destruct (string_dec a x) as [->|Hne]; [auto|].
        right. split; [exact H1|]. intros [H|H]; [contradiction | contradiction].
Qed.

Lemma unique_from_NoDup (seen l : list string) : NoDup (unique_from seen l).
Proof.
  revert seen. induction l as [|a l' IH]; intros seen; cbn [unique_from].
  - constructor.
  - destruct (existsb (String.eqb a) seen); [apply IH|].
    constructor; [|apply IH].
    intros H. apply unique_from_In in H. destruct H as [_ H]. apply H. left. reflexivity.
Qed.

Lemma unique_from_ext (seen seen' l : list string) :
  (forall x : string, In x seen <-> In x seen') ->
  unique_from seen l = unique_from seen' l.
Proof.
  revert seen seen'. induction l as [|a l' IH]; intros seen seen' Hext; [reflexivity|].
  cbn [unique_from].
  assert (E : existsb (String.eqb a) seen = existsb (String.eqb a) seen').
  { destruct (existsb (String.eqb a) seen) eqn:E1; symmetry.
    - apply existsb_eqb_In. apply Hext. apply existsb_eqb_In. exact E1.
    - destruct (existsb (String.eqb a) seen') eqn:E2; [|reflexivity].
      apply existsb_eqb_In in E2. apply Hext in E2. apply existsb_eqb_In in E2. congruence. }
  rewrite E. destruct (existsb (String.eqb a) seen') eqn:E'.
  - apply IH. exact Hext.
  - f_equal. apply IH. intros x. cbn [In]. rewrite Hext. tauto.
Qed.

Lemma unique_from_seen (seen l : list string) :
  (forall x : string, In x l -> In x seen) -> unique_from seen l = [].
Proof.
  induction l as [|a l' IH]; intros H; [reflexivity|].
  cbn [unique_from].
  assert (E : existsb (String.eqb a) seen = true).
  { apply existsb_eqb_In. apply H. left. reflexivity. }
  rewrite E. apply IH. intros x Hx. apply H. right. exact Hx.
Qed.

Lemma unique_from_app (seen l1 l2 : list string) :
  unique_from seen (l1 ++ l2)
  = (unique_from seen l1 ++ unique_from (l1 ++ seen) l2)%list.
Proof.
  revert seen. induction l1 as [|a l1' IH]; intros seen; [reflexivity|].
  cbn [app unique_from].
  destruct (existsb (String.eqb a) seen) eqn:E.
  - rewrite IH. f_equal. apply unique_from_ext.
    intros x. cbn [In]. rewrite !in_app_iff. apply existsb_eqb_In in E.
    split; [tauto|]. intros [<-|H]; tauto.
  - cbn [app]. f_equal. rewrite IH. f_equal. apply unique_from_ext.
    intros x. cbn [In]. rewrite !in_app_iff. cbn [In]. tauto.
Qed.

Lemma table_countries (raw : list RawRow) (years : list Z) (c : string) :
  In c (map country (table raw years)) -> In c (map country_code raw).
Proof.
  intros H. apply in_map_iff in H. destruct H as (row & <- & Hrow).
  apply in_table in Hrow. destruct Hrow as (y & r & _ & Hr & ->).
  cbn [country]. apply in_map. exact Hr.
Qed.

(** X19: the country list of the page is the list of country codes of
    the file, in the file's order, each code once: the 63 blocks of the
    table add no country. So the warning of line 175 is shown exactly when
    the file has no row. *)
Theorem countries_of_file (raw : list RawRow) (gdp_df : list GdpRow) :
  get_gdp_data raw = Some gdp_df ->
  countries gdp_df = unique (map country_code raw) /\
  NoDup (countries gdp_df) /\
  (forall c : string, In c (countries gdp_df) <-> In c (map country_code raw)) /\
  (List.length (countries gdp_df) = 0 <-> raw = []).
Proof.
  intros Hdata. rewrite get_gdp_data_table in Hdata.
  assert (E : gdp_df = table raw (range MIN_YEAR (MAX_YEAR + 1))) by congruence.
  clear Hdata. subst gdp_df.
  assert (Hrange : range MIN_YEAR (MAX_YEAR + 1) = 1960%Z :: range 1961 2023)
    by reflexivity.
  assert (Hc : countries (table raw (range MIN_YEAR (MAX_YEAR + 1)))
               = unique (map country_code raw)).
  { unfold countries, unique. rewrite Hrange. unfold table at 1. cbn [flat_map].
    fold (table raw (range 1961 2023)).
    rewrite map_app, map_map. cbn [country].
    rewrite unique_from_app.
    rewrite (unique_from_seen _ (map country (table raw (range 1961 2023)))).
    - apply app_nil_r.
    - intros x Hx. apply in_app_iff. left. apply (table_countries _ _ _ Hx). }
  rewrite Hc. split; [reflexivity|]. split; [apply unique_from_NoDup|].
  assert (Hmem : forall c : string,
             In c (unique (map country_code raw)) <-> In c (map country_code raw)).
  { intros c. unfold unique. rewrite unique_from_In. cbn [In]. tauto. }
  split; [exact Hmem|].
  split.
  - intros Hlen. apply length_zero_iff_nil in Hlen.
    destruct raw as [|r raw']; [reflexivity|]. exfalso.
    assert (Hin : In (country_code r) (unique (map country_code (r :: raw')))).
    { apply Hmem. left. reflexivity. }
    rewrite Hlen in Hin. exact Hin.
  - intros ->. reflexivity.
Qed.

Lemma countries_of_file_witness :
  countries (table [mkRawRow "DEU" (fun _ => 1%float); mkRawRow "FRA" (fun _ => 2%float);
                    mkRawRow "DEU" (fun _ => 3%float)] (range 1960 2023))
  = unique (map country_code
              [mkRawRow "DEU" (fun _ => 1%float); mkRawRow "FRA" (fun _ => 2%float);
               mkRawRow "DEU" (fun _ => 3%float)]).
Proof.
  apply (countries_of_file
           [mkRawRow "DEU" (fun _ => 1%float); mkRawRow "FRA" (fun _ => 2%float);
            mkRawRow "DEU" (fun _ => 3%float)]).
  reflexivity.
Defined.

End GdpFacts.

(** * Properties of the requested window *)

Module WindowFacts.

Import Clock Recorder Window.

Lemma days_in_month_range (y m : Z) : (28 <= days_in_month y m <= 31)%Z.
Proof.
  unfold days_in_month.
  destruct (m =? 2)%Z; [destruct (is_leap y); lia|].
  destruct ((m =? 4) || (m =? 6) || (m =? 9) || (m =? 11))%Z; lia.
Qed.

Lemma valid_date_iff (d : datetime) :
  valid_date d = true <->
  (1 <= year d <= 9999 /\ 1 <= month d <= 12 /\
   1 <= day d <= days_in_month (year d) (month d) /\
   0 <= hour d < 24 /\ 0 <= minute d < 60 /\ 0 <= second d < 60 /\
   0 <= microsecond d < 1000000)%Z.
Proof.
  unfold valid_date, valid_datetime.
  rewrite !andb_true_iff, !Z.leb_le, !Z.ltb_lt.
  pose proof (days_in_month_range (year d) (month d)). lia.
Qed.

Lemma next_month (y m : Z) :
  (1 <= m <= 12)%Z ->
  days_before_month y (m + 1) = (days_before_month y m + days_in_month y m)%Z.
Proof.
  intros Hm.
  assert (Hcases : (m = 1 \/ m = 2 \/ m = 3 \/ m = 4 \/ m = 5 \/ m = 6 \/ m = 7 \/ m = 8 \/
                    m = 9 \/ m = 10 \/ m = 11 \/ m = 12)%Z) by lia.
  unfold days_before_month, days_in_month.
  repeat (destruct Hcases as [->|Hcases]); try subst m; cbn;
    destruct (is_leap y); reflexivity.
Qed.

Lemma next_year (y : Z) :
  days_before_year (y + 1)
  = (days_before_year y + 365 + (if is_leap y then 1 else 0))%Z.
Proof.
  unfold days_before_year, is_leap.
  replace (y + 1 - 1)%Z with y by lia.
  destruct (y mod 4 =? 0)%Z eqn:E4; destruct (y mod 100 =? 0)%Z eqn:E100;
    destruct (y mod 400 =? 0)%Z eqn:E400; cbn [andb orb negb];
    rewrite ?Z.eqb_eq, ?Z.eqb_neq in *;
    Z.div_mod_to_equations; lia.
Qed.

Lemma end_of_year (y : Z) :
  days_before_month y 13 = (365 + (if is_leap y then 1 else 0))%Z.
Proof.
  unfold days_before_month. cbn. destruct (is_leap y); reflexivity.
Qed.

(** Adding the quarter of an hour, case by case. *)
Lemma add_15_minutes_spec (d : datetime) :
  valid_date d = true ->
  match add_15_minutes d with
  | Ok d' =>
      valid_date d' = true /\
      minutes_of d' = (minutes_of d + 15)%Z /\
      second d' = second d /\ microsecond d' = microsecond d
  | Raised e =>
      e = "date value out of range" /\
      (year d = 9999 /\ month d = 12 /\ day d = 31 /\ hour d = 23 /\ 45 <= minute d)%Z
  end.
Proof.
  intros Hv. apply valid_date_iff in Hv.
  destruct Hv as (Hy & Hm & Hd & Hh & Hn & Hs & Hu).
  unfold add_15_minutes. cbv zeta.
  destruct (minute d + 15 <? 60)%Z eqn:E1.
  { apply Z.ltb_lt in E1. split; [|split; [|split]]; try reflexivity.
    - apply valid_date_iff. cbn. lia.
    - unfold minutes_of, toordinal. cbn. lia. }
  apply Z.ltb_ge in E1.
  destruct (hour d + 1 <? 24)%Z eqn:E2.
  { apply Z.ltb_lt in E2. split; [|split; [|split]]; try reflexivity.
    - apply valid_date_iff. cbn. lia.
    - unfold minutes_of, toordinal. cbn. lia. }
  apply Z.ltb_ge in E2.
  destruct (day d + 1 <=? days_in_month (year d) (month d))%Z eqn:E3.
  { apply Z.leb_le in E3. split; [|split; [|split]]; try reflexivity.
    - apply valid_date_iff. cbn. lia.
    - unfold minutes_of, toordinal. cbn. lia. }
  apply Z.leb_gt in E3.
  pose proof (next_month (year d) (month d) Hm) as Hnext.
  pose proof (days_in_month_range (year d) (month d + 1)) as Hrange.
  destruct (month d + 1 <=? 12)%Z eqn:E4.
  { apply Z.leb_le in E4. split; [|split; [|split]]; try reflexivity.
    - apply valid_date_iff. cbn. lia.
    - unfold minutes_of, toordinal. cbn. lia. }
  apply Z.leb_gt in E4.
  assert (Hm12 : month d = 12%Z) by lia.
  rewrite Hm12 in *.
  change (12 + 1)%Z with 13%Z in Hnext. rewrite end_of_year in Hnext.
  assert (H31 : days_in_month (year d) 12 = 31%Z) by reflexivity.
  rewrite H31 in *.
  destruct (year d + 1 <=? 9999)%Z eqn:E5.
  { apply Z.leb_le in E5. split; [|split; [|split]]; try reflexivity.
    - apply valid_date_iff. cbn [year month day hour minute second microsecond].
      pose proof (days_in_month_range (year d + 1) 1). lia.
    - unfold minutes_of, toordinal. cbn [year month day hour minute].
      rewrite Hm12, next_year.
      replace (days_before_month (year d + 1) 1) with 0%Z by reflexivity.
      lia. }
  apply Z.leb_gt in E5.
  split; [reflexivity|]. lia.
Qed.

Lemma add_15_minutes_year (d d' : datetime) :
  add_15_minutes d = Ok d' -> (year d <= year d')%Z.
Proof.
  unfold add_15_minutes. cbv zeta.
  destruct (minute d + 15 <? 60)%Z; [intros H; injection H as <-; cbn; lia|].
  destruct (hour d + 1 <? 24)%Z; [intros H; injection H as <-; cbn; lia|].
  destruct (day d + 1 <=? days_in_month (year d) (month d))%Z;
    [intros H; injection H as <-; cbn; lia|].
  destruct (month d + 1 <=? 12)%Z; [intros H; injection H as <-; cbn; lia|].
  destruct (year d + 1 <=? 9999)%Z; [intros H; injection H as <-; cbn; lia|].
  discriminate.
Qed.

Lemma strftime_minutes_shape (d : datetime) :
  valid_date d = true ->
  (1000 <= year d)%Z ->
  matches minutes_pattern (strftime_minutes d) = true.
Proof.
  intros Hv Hyear. apply valid_date_iff in Hv.
  pose proof (days_in_month_range (year d) (month d)) as Hdim.
  destruct (ClockFacts.year_digits_shape (year d)) as (y1 & y2 & y3 & y4 & Ey & ? & ? & ? & ? & _);
    [lia|].
  destruct (ClockFacts.two_digits_shape (month d)) as (m1 & m2 & Em & ? & ? & _); [lia|].
  destruct (ClockFacts.two_digits_shape (day d)) as (d1 & d2 & Ed & ? & ? & _); [lia|].
  destruct (ClockFacts.two_digits_shape (hour d)) as (h1 & h2 & Eh & ? & ? & _); [lia|].
  destruct (ClockFacts.two_digits_shape (minute d)) as (n1 & n2 & En & ? & ? & _); [lia|].
  unfold strftime_minutes. rewrite Ey, Em, Ed, Eh, En.
  unfold minutes_pattern. cbn.
  repeat match goal with H : is_digit _ = true |- _ => rewrite H; clear H end.
  reflexivity.
Qed.

(** X20: the window asked of the broker is a quarter of an hour. For a
    date the calendar has, of a year written with four digits,
    [date + 15 minutes] is again such a date,
    exactly 15 minutes later on the calendar (across the end of an hour, a
    day, a month, a year and the 29th of February), with the seconds
    unchanged, and both bounds are written as YYYY-MM-DD HH:MM. The
    addition raises only in the last quarter of an hour of year 9999. *)
Theorem window_is_a_quarter_of_an_hour (date : datetime) :
  valid_date date = true ->
  (1000 <= year date)%Z ->
  matches minutes_pattern (strftime_minutes date) = true /\
  match add_15_minutes date with
  | Ok to_date =>
      valid_date to_date = true /\
      minutes_of to_date = (minutes_of date + 15)%Z /\
      second to_date = second date /\
      matches minutes_pattern (strftime_minutes to_date) = true
  | Raised e =>
      e = "date value out of range" /\
      (year date = 9999 /\ month date = 12 /\ day date = 31 /\
       hour date = 23 /\ 45 <= minute date)%Z
  end.
Proof.
  intros Hv Hyear. split; [apply strftime_minutes_shape; assumption|].
  pose proof (add_15_minutes_spec date Hv) as H.
  pose proof (add_15_minutes_year date) as Hlater.
  destruct (add_15_minutes date) as [to_date|e]; [|exact H].
  destruct H as (Hv' & Hmin & Hsec & _).
  specialize (Hlater to_date eq_refl).
  repeat split; try assumption. apply strftime_minutes_shape; [exact Hv' | lia].
Qed.

Lemma window_is_a_quarter_of_an_hour_witness :
  matches minutes_pattern (strftime_minutes (mkDatetime 2024 2 29 23 50 0 0)) = true /\
  match add_15_minutes (mkDatetime 2024 2 29 23 50 0 0) with
  | Ok to_date =>
      valid_date to_date = true /\
      minutes_of to_date = (minutes_of (mkDatetime 2024 2 29 23 50 0 0) + 15)%Z /\
      second to_date = second (mkDatetime 2024 2 29 23 50 0 0) /\
      matches minutes_pattern (strftime_minutes to_date) = true
  | Raised e =>
      e = "date value out of range" /\
      (year (mkDatetime 2024 2 29 23 50 0 0) = 9999 /\
       month (mkDatetime 2024 2 29 23 50 0 0) = 12 /\
       day (mkDatetime 2024 2 29 23 50 0 0) = 31 /\
       hour (mkDatetime 2024 2 29 23 50 0 0) = 23 /\
       45 <= minute (mkDatetime 2024 2 29 23 50 0 0))%Z
  end.
Proof.
  apply (window_is_a_quarter_of_an_hour (mkDatetime 2024 2 29 23 50 0 0));
    first [reflexivity | cbn; lia].
Defined.

Lemma add_15_minutes_seconds (d : datetime) (s us : Z) :
  add_15_minutes
    (mkDatetime (year d) (month d) (day d) (hour d) (minute d) s us)
  = match add_15_minutes d with
    | Ok d' => Ok (mkDatetime (year d') (month d') (day d') (hour d') (minute d') s us)
    | Raised e => Raised e
    end.
Proof.
  unfold add_15_minutes. cbv zeta. cbn [year month day hour minute second microsecond].
  destruct (minute d + 15 <? 60)%Z; [reflexivity|].
  destruct (hour d + 1 <? 24)%Z; [reflexivity|].
  destruct (day d + 1 <=? days_in_month (year d) (month d))%Z; [reflexivity|].
  destruct (month d + 1 <=? 12)%Z; [reflexivity|].
  destruct (year d + 1 <=? 9999)%Z; reflexivity.
Qed.

(** X21: [fetch_candle_data] with its window is [fetch_candle_data] on
    the broker's answer to the request from [date] to [date + 15 minutes]
    (or on the overflow of the date, which is reported like a failure of
    the broker); and the seconds of [date] play no part: two dates that
    agree to the minute send the same request and fetch the same frame. *)
Theorem fetch_asks_for_the_window
        (historical_data : Request -> result (list Candle)) (token interval : string)
        (date : datetime) (w : World) :
  fetch_candle_data_for historical_data token date interval w
  = fetch_candle_data (answer_for historical_data token date interval) w /\
  (forall s us : Z,
      fetch_candle_data_for historical_data token
        (mkDatetime (year date) (month date) (day date) (hour date) (minute date) s us)
        interval w
      = fetch_candle_data_for historical_data token date interval w).
Proof.
  assert (Hlink : forall d : datetime,
             fetch_candle_data_for historical_data token d interval w
             = fetch_candle_data (answer_for historical_data token d interval) w).
  { intros d.
    unfold fetch_candle_data_for, fetch_candle_data, answer_for, try_except, bind, external.
    destruct (add_15_minutes d) as [to_date|e]; cbn -[String.append strftime_minutes];
      [|reflexivity].
    destruct (historical_data _) as [data|e]; reflexivity. }
  split; [apply Hlink|].
  intros s us. rewrite !Hlink. f_equal.
  unfold answer_for. rewrite add_15_minutes_seconds.
  destruct (add_15_minutes date) as [to_date|e]; reflexivity.
Qed.

End WindowFacts.
